(** * A shallow embedding of [src/src/calc.py]

    The calculator evaluates an arithmetic expression given as text in three
    stages: [tokenize], [to_rpn] (shunting yard) and [evaluate_rpn], which
    [calculate] runs in sequence behind a parenthesis pre-check.

    Conventions of the embedding.
    - Python [str] is [string]; the model covers ASCII text (one [ascii] per
      code point).
    - A Python list used as a stack ([operator_stack], [stack]) is a [list]
      whose HEAD is the top of the stack, that is the LAST element of the
      Python list; a list that is only appended to ([output], token lists)
      keeps the Python order.
    - A call either returns a value or raises: [result A].
    - Python [int] is [Z]; Python [float] is an IEEE 754 binary64 number,
      [spec_float] at precision 53 and maximal exponent 1024. *)

From Stdlib Require Import String Ascii List ZArith Bool Lia.
From Stdlib Require Import SpecFloat.
From Stdlib Require Import Permutation.
Import ListNotations.

Local Open Scope string_scope.
Local Open Scope Z_scope.

(** ** Python strings *)

Module PyStr.

Definition char_in (c : ascii) (s : string) : bool :=
  existsb (Ascii.eqb c) (list_ascii_of_string s).

(** [str.isspace] on one ASCII character, which is also the class [\s] of
    [re] on [str] patterns: TAB, LF, VT, FF, CR, FS, GS, RS, US, space. *)
Definition isspace (c : ascii) : bool :=
  let n := N_of_ascii c in
  ((9 <=? n) && (n <=? 13) || (28 <=? n) && (n <=? 32))%N.

Definition isdigit (c : ascii) : bool :=
  let n := N_of_ascii c in ((48 <=? n) && (n <=? 57))%N.

Definition digit_value (c : ascii) : Z := Z.of_N (N_of_ascii c) - 48.

(** [s.startswith(p)] *)
Definition startswith (p s : string) : bool := String.prefix p s.

(** [c in s] for a one-character string [c] *)
Definition contains_char (c : ascii) (s : string) : bool := char_in c s.

(** [t in s] for strings: [t] occurs in [s] as a substring. *)
Fixpoint substring_of (t s : string) : bool :=
  String.prefix t s ||
  match s with
  | EmptyString => false
  | String _ rest => substring_of t rest
  end.

(** [s.replace(" ", "")] *)
Fixpoint remove_spaces (s : string) : string :=
  match s with
  | EmptyString => EmptyString
  | String c rest =>
      if Ascii.eqb c " " then remove_spaces rest
      else String c (remove_spaces rest)
  end.

(** C's [isspace] in the "C" locale ([Py_ISSPACE]): TAB, LF, VT, FF, CR and
    space. [float] and [int] skip this white space, and no other, around an
    ASCII literal: FS, GS, RS and US are white space for [str.isspace] and
    for [\s], not for them. *)
Definition isspace_c (c : ascii) : bool :=
  let n := N_of_ascii c in
  ((9 <=? n) && (n <=? 13) || (n =? 32))%N.

Fixpoint lstrip (space : ascii -> bool) (s : string) : string :=
  match s with
  | EmptyString => EmptyString
  | String c rest => if space c then lstrip space rest else s
  end.

Fixpoint rstrip (space : ascii -> bool) (s : string) : string :=
  match s with
  | EmptyString => EmptyString
  | String c rest =>
      match rstrip space rest with
      | EmptyString => if space c then EmptyString else String c EmptyString
      | kept => String c kept
      end
  end.

(** The text without the white space, of the class [space], around it. *)
Definition strip (space : ascii -> bool) (s : string) : string :=
  rstrip space (lstrip space s).

Definition lower_char (c : ascii) : ascii :=
  let n := N_of_ascii c in
  if ((65 <=? n) && (n <=? 90))%N then ascii_of_N (n + 32) else c.

(** [s.lower()] *)
Fixpoint lower (s : string) : string :=
  match s with
  | EmptyString => EmptyString
  | String c rest => String (lower_char c) (lower rest)
  end.

(** [s + c] for one character [c] *)
Definition snoc (s : string) (c : ascii) : string := s ++ String c EmptyString.

(** [token in [a, b, ...]] *)
Definition mem (token : string) (l : list string) : bool :=
  existsb (String.eqb token) l.

End PyStr.

(** ** Exceptions and results *)

(** The classes of [calc.py] and the built-in exceptions the pipeline can
    meet. [DivisionByZeroError] and [InvalidExpressionError] derive from
    [CalculatorError], which derives from [Exception]; so do the built-in
    ones. *)
Inductive exc_class :=
  | CalculatorError
  | DivisionByZeroError
  | InvalidExpressionError
  | ValueError
  | ZeroDivisionError
  | OverflowError
  | KeyError
  | TypeError.

(** The class a class is declared to derive from, below [Exception]. *)
Definition base_class (c : exc_class) : option exc_class :=
  match c with
  | DivisionByZeroError => Some CalculatorError
  | InvalidExpressionError => Some CalculatorError
  | _ => None
  end.

Definition exc_class_eqb (a b : exc_class) : bool :=
  match a, b with
  | CalculatorError, CalculatorError
  | DivisionByZeroError, DivisionByZeroError
  | InvalidExpressionError, InvalidExpressionError
  | ValueError, ValueError
  | ZeroDivisionError, ZeroDivisionError
  | OverflowError, OverflowError
  | KeyError, KeyError
  | TypeError, TypeError => true
  | _, _ => false
  end.

(** [issubclass(c, d)]: the hierarchy has depth one below [Exception]. *)
Definition issubclass (c d : exc_class) : bool :=
  exc_class_eqb c d ||
  match base_class c with
  | Some b => exc_class_eqb b d
  | None => false
  end.

(** Modelled from the spec: the message templates of [const.py] ([import
    const as constants]), which is not among the sources; the spec names the
    error situations (unrecognized symbol, unbalanced parentheses,
    insufficient operands, incomplete expression, integer-only operator,
    empty expression, division by zero, unknown failure). Each template is a
    constructor carrying the fields [calc.py] formats into it. [host_text]
    is the text of an exception raised by the Python runtime. *)
Inductive message :=
  | ERROR_INVALID_SYMBOL (symbol : string)
  | ERROR_UNBALANCED_PARENTHESES
  | ERROR_DIVISION_BY_ZERO
  | ERROR_INTEGER_OPERATION (operator : string)
  | ERROR_NOT_ENOUGH_OPERANDS
  | ERROR_INVALID_EXPRESSION
  | ERROR_EMPTY_EXPRESSION
  | ERROR_UNKNOWN (error : message)
  | host_text (text : string).

Record exn := Exc { exc_type : exc_class; exc_message : message }.

(** [isinstance(e, cls)] *)
Definition isinstance_exc (e : exn) (cls : exc_class) : bool :=
  issubclass (exc_type e) cls.

Inductive result (A : Type) :=
  | Ok (a : A)
  | Raise (e : exn).

Arguments Ok {A} a.
Arguments Raise {A} e.

Definition bind {A B : Type} (r : result A) (k : A -> result B) : result B :=
  match r with
  | Ok a => k a
  | Raise e => Raise e
  end.

Notation "x <- r ;; k" := (bind r (fun x => k))
  (at level 61, r at next level, right associativity).

(** ** Python numbers *)

Module PyNum.
Import PyStr.

Definition float := spec_float.
Definition prec : Z := 53.
Definition emax : Z := 1024.

(** The values the evaluator's stack can hold: [int], [float], and the
    [complex] numbers that [**] produces from a negative base and a
    fractional exponent. *)
Inductive value :=
  | VInt (n : Z)
  | VFloat (x : float)
  | VComplex (re im : float).

(** [isinstance(v, int)] *)
Definition is_int (v : value) : bool :=
  match v with VInt _ => true | _ => false end.


Definition is_complex (v : value) : bool :=
  match v with VComplex _ _ => true | _ => false end.

Definition float_is_zero (x : float) : bool :=
  match x with S754_zero _ => true | _ => false end.

(** [v == 0] *)
Definition eq_zero (v : value) : bool :=
  match v with
  | VInt n => n =? 0
  | VFloat x => float_is_zero x
  | VComplex re im => float_is_zero re && float_is_zero im
  end.

(** *** Literals: the grammar of [float(s)] and [int(s)] *)

(** digit (["_"] digit)*, after its first digit: the digits read so far
    as a number, how many were read, and the text left. *)
Fixpoint digits_rest (s : string) (acc count : Z) : Z * Z * string :=
  match s with
  | String c rest =>
      if isdigit c then digits_rest rest (10 * acc + digit_value c) (count + 1)
      else if Ascii.eqb c "_" then
        match rest with
        | String d _ =>
            if isdigit d then digits_rest rest acc count else (acc, count, s)
        | EmptyString => (acc, count, s)
        end
      else (acc, count, s)
  | EmptyString => (acc, count, s)
  end.

Definition digitpart (s : string) (acc count : Z) : option (Z * Z * string) :=
  match s with
  | String c _ => if isdigit c then Some (digits_rest s acc count) else None
  | EmptyString => None
  end.

(** [sign] of the grammar: whether a "-" was read, and the text left. *)
Definition sign (s : string) : bool * string :=
  match s with
  | String c rest =>
      if Ascii.eqb c "-" then (true, rest)
      else if Ascii.eqb c "+" then (false, rest)
      else (false, s)
  | EmptyString => (false, s)
  end.

(** number ::= [digitpart] "." digitpart | digitpart ["."]: all digits as
    one integer, the number of digits after the point, the text left. *)
Definition number (s : string) : option (Z * Z * string) :=
  match digitpart s 0 0 with
  | Some (ip, _, rest) =>
      match rest with
      | String c rest' =>
          if Ascii.eqb c "." then
            match digitpart rest' ip 0 with
            | Some r => Some r
            | None => Some (ip, 0, rest')
            end
          else Some (ip, 0, rest)
      | EmptyString => Some (ip, 0, rest)
      end
  | None =>
      match s with
      | String c rest' => if Ascii.eqb c "." then digitpart rest' 0 0 else None
      | EmptyString => None
      end
  end.

(** exponent ::= ("e" | "E") [sign] digitpart, when present *)
Definition exponent (s : string) : option (Z * string) :=
  match s with
  | String c rest =>
      if Ascii.eqb c "e" || Ascii.eqb c "E" then
        let '(neg, rest') := sign rest in
        match digitpart rest' 0 0 with
        | Some (e, _, rest'') => Some (if neg then - e else e, rest'')
        | None => None
        end
      else Some (0, s)
  | EmptyString => Some (0, s)
  end.

Inductive float_literal :=
  | LitInf (negative : bool)
  | LitNan
  | LitDec (negative : bool) (digits exp10 : Z).

(** What [float(s)] reads in [s], or [None] where it raises [ValueError]. *)
Definition float_syntax (s : string) : option float_literal :=
  let '(neg, body) := sign (strip isspace_c s) in
  let word := lower body in
  if String.eqb word "inf" || String.eqb word "infinity" then Some (LitInf neg)
  else if String.eqb word "nan" then Some LitNan
  else
    match number body with
    | Some (digits, nfrac, rest) =>
        match exponent rest with
        | Some (e, EmptyString) => Some (LitDec neg digits (e - nfrac))
        | _ => None
        end
    | None => None
    end.

(** The binary64 number nearest to [digits * 10 ^ exp10] (ties to even). *)
Definition float_of_literal (l : float_literal) : float :=
  match l with
  | LitInf neg => S754_infinity neg
  | LitNan => S754_nan
  | LitDec neg digits exp10 =>
      match digits with
      | Zpos m =>
          if 0 <=? exp10
          then binary_normalize prec emax
                 ((if neg then Zneg m else Zpos m) * 10 ^ exp10) 0 false
          else SFdiv prec emax (S754_finite neg m 0)
                 (S754_finite false (Z.to_pos (10 ^ (- exp10))) 0)
      | _ => S754_zero neg
      end
  end.

(** The exceptions of [float] and [int] on a text they refuse; [host_text]
    holds the fixed part of the message, to which CPython appends the
    [repr] of the text. *)
Definition ValueError_float : exn :=
  Exc ValueError (host_text "could not convert string to float").
Definition ValueError_int : exn :=
  Exc ValueError (host_text "invalid literal for int() with base 10").

(** [float(s)] *)
Definition float_of_string (s : string) : result float :=
  match float_syntax s with
  | Some l => Ok (float_of_literal l)
  | None => Raise ValueError_float
  end.

(** [int(s)]: an optional sign and a [digitpart], white space around. This
    is [int] without a limit on the number of digits, as with
    [sys.set_int_max_str_digits(0)]: by default CPython 3.11 and later
    refuse, with a [ValueError] too, a literal of more than 4300 digits. *)
Definition int_of_string (s : string) : result Z :=
  let '(neg, body) := sign (strip isspace_c s) in
  match digitpart body 0 0 with
  | Some (n, _, EmptyString) => Ok (if neg then - n else n)
  | _ => Raise ValueError_int
  end.

(** *** Conversions *)

Definition OverflowError_float : exn :=
  Exc OverflowError (host_text "int too large to convert to float").
Definition OverflowError_div : exn :=
  Exc OverflowError (host_text "integer division result too large for a float").
Definition ZeroDivisionError_ : exn :=
  Exc ZeroDivisionError (host_text "division by zero").

(** [float(n)] for an [int]: nearest binary64, or [OverflowError]. *)
Definition float_of_int (n : Z) : result float :=
  match binary_normalize prec emax n 0 false with
  | S754_infinity _ => Raise OverflowError_float
  | x => Ok x
  end.

(** The exactly rounded quotient of two integers, [b <> 0]. *)
Definition int_truediv (a b : Z) : result value :=
  match a, b with
  | Z0, _ => Ok (VFloat (S754_zero (b <? 0)))
  | _, Z0 => Raise ZeroDivisionError_
  | _, _ =>
      match SFdiv prec emax (S754_finite (a <? 0) (Z.to_pos (Z.abs a)) 0)
                            (S754_finite (b <? 0) (Z.to_pos (Z.abs b)) 0) with
      | S754_infinity _ => Raise OverflowError_div
      | x => Ok (VFloat x)
      end
  end.

End PyNum.

Import PyStr PyNum.

(** ** The operator table *)

(** The function objects stored in [OPERATORS], by name; [call] below gives
    each its meaning. *)
Inductive pyfunction :=
  | operator_pow
  | operator_mul
  | operator_truediv
  | operator_floordiv
  | operator_mod
  | operator_add
  | operator_sub
  | lambda_x_x
  | lambda_x_neg_x.

Record operator_entry := {
  precedence : Z;
  associativity : string;
  function : pyfunction
}.

(** The global dictionary [OPERATORS], in the order of its literal. *)
Definition OPERATORS : list (string * operator_entry) :=
  [ ("**", {| precedence := 4; associativity := "right"; function := operator_pow |});
    ("*",  {| precedence := 3; associativity := "left";  function := operator_mul |});
    ("/",  {| precedence := 3; associativity := "left";  function := operator_truediv |});
    ("//", {| precedence := 3; associativity := "left";  function := operator_floordiv |});
    ("%",  {| precedence := 3; associativity := "left";  function := operator_mod |});
    ("+",  {| precedence := 2; associativity := "left";  function := operator_add |});
    ("-",  {| precedence := 2; associativity := "left";  function := operator_sub |});
    ("u+", {| precedence := 5; associativity := "right"; function := lambda_x_x |});
    ("u-", {| precedence := 5; associativity := "right"; function := lambda_x_neg_x |}) ].

Fixpoint dict_get {V : Type} (d : list (string * V)) (key : string) : option V :=
  match d with
  | [] => None
  | (k, v) :: d' => if String.eqb key k then Some v else dict_get d' key
  end.

(** [key in d] *)
Definition dict_mem {V : Type} (d : list (string * V)) (key : string) : bool :=
  match dict_get d key with Some _ => true | None => false end.

(** [d[key]] *)
Definition dict_getitem {V : Type} (d : list (string * V)) (key : string) : result V :=
  match dict_get d key with
  | Some v => Ok v
  | None => Raise (Exc KeyError (host_text key))
  end.

(** ** [_is_number] *)

(** [float(token)] raises nothing but [ValueError] on a string. *)
Definition _is_number (token : string) : bool :=
  match float_of_string token with
  | Ok _ => true
  | Raise _ => false
  end.

(** ** The tokenizer *)

(** Modelled from the spec: [constants.TOKEN_PATTERN] of [const.py], which is
    not among the sources. The spec: the pattern recognizes decimal numbers
    (optional fractional part), the two-character operators [**] and [//],
    the single-character operators [+ - * / %] and parentheses; any other
    non-whitespace character sequence is an invalid symbol; white space
    separates. As a verbose regular expression:
    [\d+ (?: \. \d* )? | \*\* | // | [+\-*/%()] | [^\s\d+\-*/%()]+].
    [scan] is [re.findall] for it followed by the comprehension of
    [tokenize] that strips the matches and drops the empty ones. It reads
    the text once, left to right, holding the token under construction. *)
Inductive scan_state :=
  | Idle
  | InInt (text : string)      (* \d+ *)
  | InFrac (text : string)     (* \d+\.\d* *)
  | InStar                     (* one "*" read *)
  | InSlash                    (* one "/" read *)
  | InOther (text : string).   (* a run of characters of no token *)

(** The token a state holds when the text ends or another token begins. *)
Definition pending (st : scan_state) : list string :=
  match st with
  | Idle => []
  | InInt text | InFrac text | InOther text => [text]
  | InStar => ["*"]
  | InSlash => ["/"]
  end.

Definition is_other_char (c : ascii) : bool :=
  negb (isspace c || isdigit c || char_in c "+-*/%()").

(** Reading [c] with no token under construction. *)
Definition scan_start (c : ascii) : scan_state * list string :=
  if isspace c then (Idle, [])
  else if isdigit c then (InInt (String c ""), [])
  else if Ascii.eqb c "*" then (InStar, [])
  else if Ascii.eqb c "/" then (InSlash, [])
  else if char_in c "+-%()" then (Idle, [String c ""])
  else (InOther (String c ""), []).

(** The held token ends before [c]. *)
Definition scan_flush (st : scan_state) (c : ascii) : scan_state * list string :=
  let '(st', emitted) := scan_start c in (st', (pending st ++ emitted)%list).

Definition scan_step (st : scan_state) (c : ascii) : scan_state * list string :=
  match st with
  | Idle => scan_start c
  | InInt text =>
      if isdigit c then (InInt (snoc text c), [])
      else if Ascii.eqb c "." then (InFrac (snoc text c), [])
      else scan_flush st c
  | InFrac text =>
      if isdigit c then (InFrac (snoc text c), []) else scan_flush st c
  | InStar => if Ascii.eqb c "*" then (Idle, ["**"]) else scan_flush st c
  | InSlash => if Ascii.eqb c "/" then (Idle, ["//"]) else scan_flush st c
  | InOther text =>
      if is_other_char c then (InOther (snoc text c), []) else scan_flush st c
  end.

Fixpoint scan_from (st : scan_state) (s : string) : list string :=
  match s with
  | EmptyString => pending st
  | String c rest =>
      let '(st', emitted) := scan_step st c in (emitted ++ scan_from st' rest)%list
  end.

Definition scan (expression : string) : list string := scan_from Idle expression.

(** [enumerate(l)], counting from [i] *)
Fixpoint enumerate_from {A : Type} (i : nat) (l : list A) : list (nat * A) :=
  match l with
  | [] => []
  | x :: l' => (i, x) :: enumerate_from (S i) l'
  end.

Definition enumerate {A : Type} (l : list A) : list (nat * A) := enumerate_from 0 l.

(** [tokens[i - 1]], read only where [i <> 0]. *)
Definition token_before (tokens : list string) (i : nat) : string :=
  nth (i - 1)%nat tokens "".

(** The condition [is_unary] of [_process_unary_operators] at index [i]. *)
Definition is_unary (tokens : list string) (i : nat) : bool :=
  (i =? 0)%nat
  || String.eqb (token_before tokens i) "("
  || (dict_mem OPERATORS (token_before tokens i)
      && negb (startswith "u" (token_before tokens i))).

Definition _process_unary_operators (tokens : list string) : list string :=
  map (fun '(i, token) =>
         if mem token ["+"; "-"] then
           if is_unary tokens i then "u" ++ token else token
         else token)
      (enumerate tokens).

(** The test [tokenize] applies to each token. *)
Definition token_accepted (token : string) : bool :=
  _is_number token
  || dict_mem OPERATORS token
  || substring_of token "()"
  || mem token ["**"; "//"]
  || startswith "u" token.

(** The validation loop of [tokenize]: the first token refused raises. *)
Fixpoint check_tokens (tokens : list string) : result unit :=
  match tokens with
  | [] => Ok tt
  | token :: rest =>
      if negb (token_accepted token)
      then Raise (Exc InvalidExpressionError (ERROR_INVALID_SYMBOL token))
      else check_tokens rest
  end.

Definition tokenize (expression : string) : result (list string) :=
  let tokens := scan expression in
  _ <- check_tokens tokens ;;
  Ok (_process_unary_operators tokens).

(** ** The converter to reverse Polish notation *)

Definition _should_pop_operator (stack_top current_token : string) : result bool :=
  if negb (dict_mem OPERATORS stack_top) then Ok false
  else
    stack_op <- dict_getitem OPERATORS stack_top ;;
    current_op <- dict_getitem OPERATORS current_token ;;
    if precedence stack_op >? precedence current_op then Ok true
    else if (precedence stack_op =? precedence current_op)
            && String.eqb (associativity current_op) "left"
    then Ok true
    else Ok false.

Definition unbalanced : exn :=
  Exc InvalidExpressionError ERROR_UNBALANCED_PARENTHESES.

(** The [while] loop of the operator branch: it returns the operator stack
    and the output it leaves. *)
Fixpoint pop_operators (token : string) (operator_stack output : list string)
  : result (list string * list string) :=
  match operator_stack with
  | [] => Ok ([], output)
  | top :: below =>
      if String.eqb top "(" then Ok (operator_stack, output)
      else
        pop <- _should_pop_operator top token ;;
        if pop then pop_operators token below (output ++ [top])%list
        else Ok (operator_stack, output)
  end.

(** The [while] loop of the [")"] branch. *)
Fixpoint pop_to_paren (operator_stack output : list string)
  : list string * list string :=
  match operator_stack with
  | [] => ([], output)
  | top :: below =>
      if String.eqb top "(" then (operator_stack, output)
      else pop_to_paren below (output ++ [top])%list
  end.

(** The body of the [for] loop, on the pair [(output, operator_stack)]. *)
Definition rpn_step (state : list string * list string) (token : string)
  : result (list string * list string) :=
  let '(output, operator_stack) := state in
  if _is_number token then Ok ((output ++ [token])%list, operator_stack)
  else if dict_mem OPERATORS token then
    popped <- pop_operators token operator_stack output ;;
    let '(operator_stack, output) := popped in
    Ok (output, token :: operator_stack)
  else if String.eqb token "(" then Ok (output, token :: operator_stack)
  else if String.eqb token ")" then
    let '(operator_stack, output) := pop_to_paren operator_stack output in
    match operator_stack with
    | [] => Raise unbalanced
    | _ :: below => Ok (output, below)
    end
  else Ok state.

Fixpoint rpn_loop (tokens : list string) (state : list string * list string)
  : result (list string * list string) :=
  match tokens with
  | [] => Ok state
  | token :: rest => state' <- rpn_step state token ;; rpn_loop rest state'
  end.

(** The final [while operator_stack] loop. *)
Fixpoint rpn_drain (operator_stack output : list string) : result (list string) :=
  match operator_stack with
  | [] => Ok output
  | top :: below =>
      if String.eqb top "(" then Raise unbalanced
      else rpn_drain below (output ++ [top])%list
  end.

Definition to_rpn (tokens : list string) : result (list string) :=
  state <- rpn_loop tokens ([], []) ;;
  let '(output, operator_stack) := state in
  rpn_drain operator_stack output.

(** ** The evaluator *)

Definition division_by_zero : exn :=
  Exc DivisionByZeroError ERROR_DIVISION_BY_ZERO.

Definition integer_operation (operator : string) : exn :=
  Exc InvalidExpressionError (ERROR_INTEGER_OPERATION operator).

Definition not_enough_operands : exn :=
  Exc InvalidExpressionError ERROR_NOT_ENOUGH_OPERANDS.

Definition invalid_expression : exn :=
  Exc InvalidExpressionError ERROR_INVALID_EXPRESSION.

Definition empty_expression : exn :=
  Exc InvalidExpressionError ERROR_EMPTY_EXPRESSION.

Definition _validate_operation (operator : string) (left right : value) : result unit :=
  if mem operator ["/"; "//"; "%"] && eq_zero right
  then Raise division_by_zero
  else if mem operator ["//"; "%"] then
    if negb (is_int left) || negb (is_int right)
    then Raise (integer_operation operator)
    else Ok tt
  else Ok tt.

(** ** The parenthesis pre-check *)

Fixpoint check_parentheses_from (stack : list ascii) (expression : string) : bool :=
  match expression with
  | EmptyString => (length stack =? 0)%nat
  | String char rest =>
      if Ascii.eqb char "(" then check_parentheses_from (char :: stack) rest
      else if Ascii.eqb char ")" then
        match stack with
        | [] => false
        | _ :: stack' => check_parentheses_from stack' rest
        end
      else check_parentheses_from stack rest
  end.

Definition _check_parentheses (expression : string) : bool :=
  check_parentheses_from [] expression.

(** The arithmetic the model leaves to the Python runtime, because its result
    is a matter of the C library or leaves [int] and [float]: every operation
    with a [complex] operand; [**] with a [float] operand or with a negative
    [int] exponent; [//] and [%] with a [float] operand. *)
Inductive host_op :=
  | HostAdd | HostSub | HostMul | HostTruediv | HostFloordiv | HostMod | HostPow.

Definition runtime := host_op -> value -> value -> result value.

Section Evaluator.

Variable host : runtime.

(** [float(v)] for an operand that is not [complex]. *)
Definition as_float (v : value) : result float :=
  match v with
  | VInt n => float_of_int n
  | VFloat x => Ok x
  | VComplex _ _ => Raise (Exc TypeError (host_text "complex operand"))
  end.

(** An operation on [float]s once an operand is one: the [int] operand, if
    any, is converted first. *)
Definition float_arith (op : host_op) (f : float -> float -> result value)
           (left right : value) : result value :=
  if is_complex left || is_complex right then host op left right
  else x <- as_float left ;; y <- as_float right ;; f x y.

Definition py_add (left right : value) : result value :=
  match left, right with
  | VInt a, VInt b => Ok (VInt (a + b))
  | _, _ => float_arith HostAdd (fun x y => Ok (VFloat (SFadd prec emax x y))) left right
  end.

Definition py_sub (left right : value) : result value :=
  match left, right with
  | VInt a, VInt b => Ok (VInt (a - b))
  | _, _ => float_arith HostSub (fun x y => Ok (VFloat (SFsub prec emax x y))) left right
  end.

Definition py_mul (left right : value) : result value :=
  match left, right with
  | VInt a, VInt b => Ok (VInt (a * b))
  | _, _ => float_arith HostMul (fun x y => Ok (VFloat (SFmul prec emax x y))) left right
  end.

Definition py_truediv (left right : value) : result value :=
  match left, right with
  | VInt a, VInt b =>
      if b =? 0 then Raise ZeroDivisionError_ else int_truediv a b
  | _, _ =>
      float_arith HostTruediv
        (fun x y => if float_is_zero y then Raise ZeroDivisionError_
                    else Ok (VFloat (SFdiv prec emax x y)))
        left right
  end.

(** [Z.div] and [Z.modulo] round towards minus infinity, as [//] and [%]. *)
Definition py_floordiv (left right : value) : result value :=
  match left, right with
  | VInt a, VInt b =>
      if b =? 0 then Raise ZeroDivisionError_ else Ok (VInt (a / b))
  | _, _ => host HostFloordiv left right
  end.

Definition py_mod (left right : value) : result value :=
  match left, right with
  | VInt a, VInt b =>
      if b =? 0 then Raise ZeroDivisionError_ else Ok (VInt (a mod b))
  | _, _ => host HostMod left right
  end.

Definition py_pow (left right : value) : result value :=
  match left, right with
  | VInt a, VInt b =>
      if 0 <=? b then Ok (VInt (a ^ b)) else host HostPow left right
  | _, _ => host HostPow left right
  end.

(** [-x] *)
Definition py_neg (x : value) : result value :=
  match x with
  | VInt n => Ok (VInt (- n))
  | VFloat x => Ok (VFloat (SFopp x))
  | VComplex re im => Ok (VComplex (SFopp re) (SFopp im))
  end.

Definition wrong_arity : exn :=
  Exc TypeError (host_text "wrong number of arguments").

(** Calling a function object of the table on its arguments. *)
Definition call (f : pyfunction) (args : list value) : result value :=
  match f, args with
  | operator_pow, [a; b] => py_pow a b
  | operator_mul, [a; b] => py_mul a b
  | operator_truediv, [a; b] => py_truediv a b
  | operator_floordiv, [a; b] => py_floordiv a b
  | operator_mod, [a; b] => py_mod a b
  | operator_add, [a; b] => py_add a b
  | operator_sub, [a; b] => py_sub a b
  | lambda_x_x, [x] => Ok x
  | lambda_x_neg_x, [x] => py_neg x
  | _, _ => Raise wrong_arity
  end.

(** The body of the [for] loop of [evaluate_rpn]. *)
Definition eval_token (stack : list value) (token : string) : result (list value) :=
  if _is_number token then
    if contains_char "." token
    then x <- float_of_string token ;; Ok (VFloat x :: stack)
    else n <- int_of_string token ;; Ok (VInt n :: stack)
  else if dict_mem OPERATORS token then
    if startswith "u" token then
      match stack with
      | operand :: stack' =>
          entry <- dict_getitem OPERATORS token ;;
          result <- call (function entry) [operand] ;;
          Ok (result :: stack')
      | [] => Raise not_enough_operands
      end
    else
      match stack with
      | right_ :: left_ :: stack' =>
          _ <- _validate_operation token left_ right_ ;;
          entry <- dict_getitem OPERATORS token ;;
          result <- call (function entry) [left_; right_] ;;
          Ok (result :: stack')
      | _ => Raise not_enough_operands
      end
  else Ok stack.

Fixpoint eval_loop (rpn_tokens : list string) (stack : list value)
  : result (list value) :=
  match rpn_tokens with
  | [] => Ok stack
  | token :: rest => stack' <- eval_token stack token ;; eval_loop rest stack'
  end.

Definition evaluate_rpn (rpn_tokens : list string) : result value :=
  stack <- eval_loop rpn_tokens [] ;;
  match stack with
  | [v] => Ok v
  | _ => Raise invalid_expression
  end.

(** ** The orchestrator *)

(** The body of the [try] statement of [calculate]. *)
Definition calculate_try (expression : string) : result value :=
  let expression := remove_spaces expression in
  if String.eqb expression ""
  then Raise empty_expression
  else if negb (_check_parentheses expression) then Raise unbalanced
  else
    tokens <- tokenize expression ;;
    rpn_tokens <- to_rpn tokens ;;
    evaluate_rpn rpn_tokens.

(** [try: ... except CalculatorError: raise; except Exception as e: raise
    CalculatorError(ERROR_UNKNOWN.format(error=e))] *)
Definition calculate (expression : string) : result value :=
  match calculate_try expression with
  | Ok v => Ok v
  | Raise e =>
      if isinstance_exc e CalculatorError then Raise e
      else Raise (Exc CalculatorError (ERROR_UNKNOWN (exc_message e)))
  end.

End Evaluator.

(** A runtime with neither [complex] numbers nor a C library: whatever the
    model leaves to the host raises. It serves to run the model on inputs
    that never reach the host. *)
Definition bare_runtime : runtime :=
  fun _ _ _ => Raise (Exc TypeError (host_text "unsupported operand")).







(** ** The vocabulary of the specification *)

(** The pop rule of the converter as the specification words it (4.3): the
    stack top is an operator, not a left parenthesis, whose precedence is
    greater than that of the incoming operator [op], or equal to it while
    [op] associates to the left. *)
Definition pop_rule (top op : string) : Prop :=
  top <> "(" /\
  exists t o,
    dict_get OPERATORS top = Some t /\ dict_get OPERATORS op = Some o /\
    (precedence t > precedence o
     \/ (precedence t = precedence o /\ associativity o = "left")).

(** The binary operators of the specification's table (4.1). *)
Definition is_binary_operator (token : string) : bool :=
  mem token ["**"; "*"; "/"; "//"; "%"; "+"; "-"].

(** The rule of the specification (4.2) for a sign at index [i]: it is the
    first token, or the token just before it is ["("] or a binary operator. *)
Definition preceded_for_unary (tokens : list string) (i : nat) : Prop :=
  i = 0%nat
  \/ exists j previous,
       i = S j /\ nth_error tokens j = Some previous
       /\ (previous = "(" \/ is_binary_operator previous = true).

(** Parentheses as events, [true] for an opening one, and the balance of a
    sequence of events read at a given nesting depth. *)
Fixpoint balanced_from (depth : nat) (parens : list bool) : bool :=
  match parens with
  | [] => (depth =? 0)%nat
  | true :: rest => balanced_from (S depth) rest
  | false :: rest =>
      match depth with
      | O => false
      | S depth' => balanced_from depth' rest
      end
  end.

Definition char_parens (c : ascii) : list bool :=
  if Ascii.eqb c "(" then [true] else if Ascii.eqb c ")" then [false] else [].

Fixpoint string_parens (s : string) : list bool :=
  match s with
  | EmptyString => []
  | String c rest => (char_parens c ++ string_parens rest)%list
  end.

Definition token_paren (token : string) : list bool :=
  if String.eqb token "(" then [true]
  else if String.eqb token ")" then [false] else [].

Definition token_parens (tokens : list string) : list bool :=
  flat_map token_paren tokens.

(** The number of ["("] markers on an operator stack. *)
Fixpoint open_parens (operator_stack : list string) : nat :=
  match operator_stack with
  | [] => 0
  | top :: below => (if String.eqb top "(" then 1 else 0) + open_parens below
  end%nat.


(** [to_rpn] from the middle of its [for] loop. *)
Definition rpn_finish (tokens : list string) (state : list string * list string)
  : result (list string) :=
  state' <- rpn_loop tokens state ;;
  let '(output, operator_stack) := state' in rpn_drain operator_stack output.

Fixpoint all_chars (p : ascii -> bool) (s : string) : bool :=
  match s with
  | EmptyString => true
  | String c rest => p c && all_chars p rest
  end.

(** [pytest.raises(cls)]: the call raises an instance of [cls]. *)
Definition raises {A : Type} (r : result A) (cls : exc_class) : Prop :=
  exists e, r = Raise e /\ isinstance_exc e cls = true.

(** ** Further definitions *)

(** [calculate_expression] *)
Definition calculate_expression (host : runtime) (expression : string) : result value :=
  calculate host expression.

(** The tokens the converter and the evaluator act on: the others fall
    through every branch of their loops. *)
Definition is_operand_or_operator (token : string) : bool :=
  _is_number token || dict_mem OPERATORS token.

Definition is_parenthesis (token : string) : bool :=
  String.eqb token "(" || String.eqb token ")".

(** What is on its way to the output in a state of the converter: the
    output so far, then the operators waiting on the stack. *)
Definition pending_output (state : list string * list string) : list string :=
  (fst state ++ filter (fun top => negb (String.eqb top "(")) (snd state))%list.

(** The effect of a token on the height of the evaluator's stack. *)
Definition stack_delta (token : string) : Z :=
  if _is_number token then 1
  else if dict_mem OPERATORS token then
    if startswith "u" token then 0 else -1
  else 0.

Definition stack_deltas (tokens : list string) : Z :=
  fold_right (fun token total => stack_delta token + total) 0 tokens.

(** An infix chain [first o1 n1 o2 n2 ...] and its postfix forms, grouped
    to the left and to the right. *)
Definition infix_chain (first : string) (rest : list (string * string)) : list string :=
  first :: flat_map (fun '(o, n) => [o; n]) rest.

Definition postfix_left (first : string) (rest : list (string * string)) : list string :=
  first :: flat_map (fun '(o, n) => [n; o]) rest.

Definition postfix_right (first : string) (rest : list (string * string)) : list string :=
  (first :: map snd rest ++ rev (map fst rest))%list.

(** Counting a character in a text. *)
Fixpoint count_char (c : ascii) (s : string) : nat :=
  match s with
  | EmptyString => 0
  | String d rest => (if Ascii.eqb d c then 1 else 0) + count_char c rest
  end%nat.

(** An operator of the table with a given precedence and associativity. *)
Definition of_class (p : Z) (assoc : string) (o : string) : Prop :=
  exists entry, dict_get OPERATORS o = Some entry
                /\ precedence entry = p /\ associativity entry = assoc.


(** What the unary pass makes of the token at index [i]. *)
Definition retag_sign (tokens : list string) (i : nat) (token : string) : string :=
  if mem token ["+"; "-"] then
    if is_unary tokens i then "u" ++ token else token
  else token.

(** The value the evaluator pushes for a number token, and what it does
    with a binary operator on two values: reference points for the
    evaluation of chains. *)
Definition number_value (token : string) : result value :=
  if contains_char "." token
  then x <- float_of_string token ;; Ok (VFloat x)
  else n <- int_of_string token ;; Ok (VInt n).

Definition apply_binary (host : runtime) (op : string) (l r : value) : result value :=
  _ <- _validate_operation op l r ;;
  entry <- dict_getitem OPERATORS op ;;
  call host (function entry) [l; r].

(** [((v o1 n1) o2 n2) ...] *)
Fixpoint fold_chain_left (host : runtime) (v : value) (rest : list (string * string))
  : result value :=
  match rest with
  | [] => Ok v
  | (o, n) :: rest' =>
      w <- number_value n ;;
      r <- apply_binary host o v w ;;
      fold_chain_left host r rest'
  end.

(** [v o1 (n1 o2 (n2 ...))], the numbers being read first. *)
Fixpoint fold_chain_right (host : runtime) (v : value) (rest : list (string * string))
  : result value :=
  match rest with
  | [] => Ok v
  | (o, n) :: rest' =>
      w <- number_value n ;;
      r <- fold_chain_right host w rest' ;;
      apply_binary host o v r
  end.

(** * Properties *)

(** ** The operator table *)

Lemma mem_cases (token : string) (l : list string) :
  mem token l = true -> In token l.
Proof.
  unfold mem. rewrite existsb_exists. intros (k & Hin & Heq).
  apply String.eqb_eq in Heq. subst. exact Hin.
Qed.

(** Case analysis on a token known to be one of finitely many strings. *)
Ltac each_key H tac :=
  simpl in H;
  repeat (destruct H as [<- | H]; [ tac | ]);
  try contradiction.

Lemma operators_keys (token : string) :
  dict_mem OPERATORS token = true ->
  In token ["**"; "*"; "/"; "//"; "%"; "+"; "-"; "u+"; "u-"].
Proof.
  unfold dict_mem, OPERATORS; simpl.
  repeat match goal with
         | |- context [String.eqb token ?k] =>
             destruct (String.eqb_spec token k) as [-> | _];
             [ intros _; simpl; tauto | ]
         end.
  discriminate.
Qed.

Lemma operator_not_number (token : string) :
  dict_mem OPERATORS token = true ->
  _is_number token = false /\ token <> "(" /\ token <> ")".
Proof.
  intros H; apply operators_keys in H.
  each_key H ltac:(repeat split; try discriminate; vm_compute; reflexivity).
Qed.

(** The test of [_process_unary_operators] on the token before a sign
    selects the binary operators of the table. *)
Lemma binary_operator_test (token : string) :
  dict_mem OPERATORS token && negb (startswith "u" token) = is_binary_operator token.
Proof.
  destruct (is_binary_operator token) eqn:Hb.
  - apply mem_cases in Hb. each_key Hb ltac:(reflexivity).
  - destruct (dict_mem OPERATORS token) eqn:Hm; [ | reflexivity ].
    apply operators_keys in Hm.
    each_key Hm ltac:(first [ discriminate Hb | reflexivity ]).
Qed.

(** ** Acceptance tests of the precedence table *)

(** C1. The binding acceptance tests: [calculate("-2 ** 3")] and
    [calculate("(-2) ** 3")] return the integer -8, and
    [calculate("2 ** 3 ** 2")] returns 512, the exponentiation chain being
    grouped to the right ([to_rpn] leaves both [**] for the end). *)
Theorem calculate_acceptance_tests (host : runtime) :
  calculate host "-2 ** 3" = Ok (VInt (-8))
  /\ calculate host "(-2) ** 3" = Ok (VInt (-8))
  /\ calculate host "2 ** 3 ** 2" = Ok (VInt 512)
  /\ to_rpn ["2"; "**"; "3"; "**"; "2"] = Ok ["2"; "3"; "2"; "**"; "**"].
Proof.
  split; [ | split; [ | split ] ].
  - vm_compute. reflexivity.
  - vm_compute. reflexivity.
  - vm_compute. reflexivity.
  - reflexivity.
Qed.

(** C3. On ["-2 ** 2"], where the two groupings differ, [calculate] returns
    4: the pending unary minus (precedence 5) is popped before [**]
    (precedence 4) is pushed, so the postfix form is [2 u- 2 **], that is
    (-2) ** 2; the other grouping, [2 2 ** u-], evaluates to -4. *)
Theorem calculate_unary_minus_binds_tighter (host : runtime) :
  tokenize "-2**2" = Ok ["u-"; "2"; "**"; "2"]
  /\ _should_pop_operator "u-" "**" = Ok true
  /\ rpn_step (["2"], ["u-"]) "**" = Ok (["2"; "u-"], ["**"])
  /\ to_rpn ["u-"; "2"; "**"; "2"] = Ok ["2"; "u-"; "2"; "**"]
  /\ calculate host "-2 ** 2" = Ok (VInt 4)
  /\ evaluate_rpn host ["2"; "2"; "**"; "u-"] = Ok (VInt (-4)).
Proof.
  split; [ reflexivity | ].
  split; [ reflexivity | ].
  split; [ reflexivity | ].
  split; [ reflexivity | ].
  split; vm_compute; reflexivity.
Qed.

(** ** The converter *)

Lemma should_pop_total (top op : string) :
  dict_mem OPERATORS op = true ->
  exists b, _should_pop_operator top op = Ok b /\ (b = true <-> pop_rule top op).
Proof.
  intros Hop. unfold _should_pop_operator, dict_getitem, dict_mem in *.
  destruct (dict_get OPERATORS op) as [o |] eqn:Eo; [ | discriminate ].
  destruct (dict_get OPERATORS top) as [t |] eqn:Et; simpl.
  - assert (Hne : top <> "(") by (intros ->; vm_compute in Et; discriminate).
    assert (Hinv : pop_rule top op ->
                   precedence t > precedence o
                   \/ (precedence t = precedence o /\ associativity o = "left")).
    { intros [_ (t' & o' & Ht' & Ho' & Hr)].
      rewrite Et in Ht'. rewrite Eo in Ho'.
      injection Ht' as <-. injection Ho' as <-. exact Hr. }
    assert (Hyes : precedence t > precedence o
                   \/ (precedence t = precedence o /\ associativity o = "left") ->
                   pop_rule top op).
    { intros Hr. split; [ exact Hne | ]. exists t, o. auto. }
    destruct (precedence t >? precedence o) eqn:Hgt.
    + exists true. split; [ reflexivity | ].
      split; [ intros _; apply Hyes; left; lia | reflexivity ].
    + destruct (precedence t =? precedence o) eqn:Heq; simpl.
      * destruct (String.eqb_spec (associativity o) "left") as [Hl | Hl].
        -- exists true. split; [ reflexivity | ].
           split; [ intros _; apply Hyes; right; split; [ lia | exact Hl ] | reflexivity ].
        -- exists false. split; [ reflexivity | ].
           split; [ discriminate | ].
           intros H. destruct (Hinv H) as [Hr | [_ Hr]]; [ lia | contradiction ].
      * exists false. split; [ reflexivity | ].
        split; [ discriminate | ].
        intros H. destruct (Hinv H) as [Hr | [Hr _]]; lia.
  - exists false. split; [ reflexivity | ].
    split; [ discriminate | ].
    intros [_ (t' & o' & Ht' & _)]. rewrite Et in Ht'. discriminate.
Qed.

(** The [while] loop pops a prefix of the stack (its top part), every
    element of which meets the rule, and stops on an element that does not. *)
Lemma pop_operators_spec (op : string) (operator_stack output : list string) :
  dict_mem OPERATORS op = true ->
  exists popped kept,
    operator_stack = (popped ++ kept)%list
    /\ pop_operators op operator_stack output = Ok (kept, (output ++ popped)%list)
    /\ Forall (fun top => pop_rule top op) popped
    /\ (forall top below, kept = top :: below -> ~ pop_rule top op).
Proof.
  intros Hop. revert output.
  induction operator_stack as [| top below IH]; intros output.
  - exists [], []. simpl. rewrite app_nil_r. repeat split; auto. discriminate.
  - simpl. destruct (String.eqb_spec top "(") as [-> | Hne].
    + exists [], ("(" :: below). simpl. rewrite app_nil_r. repeat split; auto.
      intros top' below' [= <- _] [Habs _]. congruence.
    + destruct (should_pop_total top op Hop) as (b & -> & Hb). simpl.
      destruct b.
      * destruct (IH (output ++ [top])%list) as (popped & kept & -> & -> & Hall & Hkept).
        exists (top :: popped), kept. rewrite <- app_assoc. simpl.
        repeat split; auto. constructor; [ apply Hb; reflexivity | exact Hall ].
      * exists [], (top :: below). simpl. rewrite app_nil_r. repeat split; auto.
        intros top' below' [= <- _] Habs. apply Hb in Habs. discriminate.
Qed.

(** C2. In [to_rpn], for an incoming operator token [op], the operators
    popped to the output are exactly the longest run of stack tops that are
    operators (not a left parenthesis) of precedence greater than that of
    [op], or equal to it with [op] left-associative; [op] is then pushed.
    The right-associative operators are [**], [u+] and [u-], and for them a
    stack top of equal precedence is never popped. *)
Theorem to_rpn_pops_by_precedence (op : string) (operator_stack output : list string) :
  dict_mem OPERATORS op = true ->
  (exists popped kept,
      operator_stack = (popped ++ kept)%list
      /\ rpn_step (output, operator_stack) op = Ok ((output ++ popped)%list, op :: kept)
      /\ Forall (fun top => pop_rule top op) popped
      /\ (forall top below, kept = top :: below -> ~ pop_rule top op))
  /\ (forall o, dict_get OPERATORS op = Some o ->
        (associativity o = "right" <-> In op ["**"; "u+"; "u-"])
        /\ (associativity o = "right" ->
            forall top t, dict_get OPERATORS top = Some t ->
                          precedence t = precedence o ->
                          _should_pop_operator top op = Ok false /\ ~ pop_rule top op)).
Proof.
  intros Hop. split.
  - destruct (pop_operators_spec op operator_stack output Hop)
      as (popped & kept & Hsplit & Hpop & Hall & Hkept).
    exists popped, kept. repeat split; auto.
    unfold rpn_step. destruct (operator_not_number op Hop) as (-> & _ & _).
    rewrite Hop, Hpop. reflexivity.
  - intros o Ho. split.
    + pose proof (operators_keys op Hop) as Hin.
      each_key Hin ltac:(vm_compute in Ho; injection Ho as <-; simpl;
                         split; intros H; try discriminate H; try tauto;
                         repeat (destruct H as [H | H]; try discriminate H);
                         try contradiction).
    + intros Hright top t Ht Hprec.
      destruct (should_pop_total top op Hop) as (b & Hb & Hrule).
      assert (Hno : ~ pop_rule top op).
      { intros [_ (t' & o' & Ht' & Ho' & Hr)].
        rewrite Ht in Ht'. rewrite Ho in Ho'. injection Ht' as <-. injection Ho' as <-.
        destruct Hr as [Hr | [_ Hr]]; [ lia | rewrite Hright in Hr; discriminate ]. }
      split; [ | exact Hno ].
      destruct b; [ exfalso; apply Hno, Hrule; reflexivity | exact Hb ].
Qed.

Lemma to_rpn_pops_by_precedence_witness :
  (exists popped kept,
      ["*"; "+"; "("; "-"] = (popped ++ kept)%list
      /\ rpn_step (["1"; "2"], ["*"; "+"; "("; "-"]) "+"
         = Ok ((["1"; "2"] ++ popped)%list, "+" :: kept)
      /\ Forall (fun top => pop_rule top "+") popped
      /\ (forall top below, kept = top :: below -> ~ pop_rule top "+"))
  /\ _should_pop_operator "**" "**" = Ok false.
Proof.
  split.
  - exact (proj1 (to_rpn_pops_by_precedence "+" ["*"; "+"; "("; "-"] ["1"; "2"] eq_refl)).
  - refine (proj1 (proj2 (proj2 (to_rpn_pops_by_precedence "**" [] [] eq_refl) _ _)
                     _ "**" _ _ _)); reflexivity.
Defined.

(** ** The tokenizer *)

Lemma nth_error_enumerate {A B : Type} (f : nat * A -> B) (l : list A) (k i : nat) :
  nth_error (map f (enumerate_from k l)) i =
  option_map (fun x => f ((k + i)%nat, x)) (nth_error l i).
Proof.
  revert k i. induction l as [| x l IH]; intros k i.
  - destruct i; reflexivity.
  - destruct i; simpl.
    + rewrite Nat.add_0_r. reflexivity.
    + rewrite IH. rewrite Nat.add_succ_comm. reflexivity.
Qed.

Lemma is_unary_spec (tokens : list string) (i : nat) (token : string) :
  nth_error tokens i = Some token ->
  is_unary tokens i = true <-> preceded_for_unary tokens i.
Proof.
  intros Hi. unfold is_unary, preceded_for_unary, token_before.
  destruct i as [| j]; simpl.
  - split; [ intros _; left; reflexivity | reflexivity ].
  - rewrite Nat.sub_0_r, binary_operator_test.
    assert (Hj : (j < length tokens)%nat).
    { apply Nat.lt_succ_l. apply nth_error_Some. rewrite Hi. discriminate. }
    destruct (nth_error tokens j) as [previous |] eqn:Hp;
      [ | apply nth_error_None in Hp; lia ].
    rewrite (nth_error_nth _ _ "" Hp).
    split.
    + intros H. right. exists j, previous.
      split; [ reflexivity | ]. split; [ exact Hp | ].
      apply orb_true_iff in H. destruct H as [H | H]; [ left | right; exact H ].
      apply String.eqb_eq; exact H.
    + intros [H | (j' & previous' & [= <-] & Hp' & H)]; [ discriminate | ].
      rewrite Hp in Hp'. injection Hp' as <-. apply orb_true_iff.
      destruct H as [-> | H]; [ left; reflexivity | right; exact H ].
Qed.

(** C5. A [+] or [-] token at index [i] is retagged as unary ([u+], [u-])
    if and only if it is the first token, or the token just before it is
    ["("] or a binary operator; otherwise it is left as it is. The rule
    reads the tokens as scanned, so in ["--5"] both signs are unary: the
    first sign being unary does not disqualify the second. *)
Theorem sign_is_unary_iff_preceded (tokens : list string) (i : nat) (token : string) :
  nth_error tokens i = Some token ->
  token = "+" \/ token = "-" ->
  (preceded_for_unary tokens i ->
   nth_error (_process_unary_operators tokens) i = Some ("u" ++ token))
  /\ (~ preceded_for_unary tokens i ->
      nth_error (_process_unary_operators tokens) i = Some token)
  /\ tokenize "--5" = Ok ["u-"; "u-"; "5"].
Proof.
  intros Hi Hsign.
  assert (Hnth : nth_error (_process_unary_operators tokens) i =
                 Some (if is_unary tokens i then "u" ++ token else token)).
  { unfold _process_unary_operators, enumerate.
    rewrite nth_error_enumerate, Hi. simpl.
    destruct Hsign as [-> | ->]; reflexivity. }
  pose proof (is_unary_spec tokens i token Hi) as Hspec.
  split; [ | split ].
  - intros H. apply Hspec in H. rewrite Hnth, H. reflexivity.
  - intros H. rewrite Hnth. destruct (is_unary tokens i); [ | reflexivity ].
    exfalso. apply H, Hspec. reflexivity.
  - reflexivity.
Qed.

Lemma sign_is_unary_iff_preceded_witness :
  nth_error (_process_unary_operators ["-"; "-"; "5"; "-"; "2"]) 1 = Some "u-"
  /\ nth_error (_process_unary_operators ["-"; "-"; "5"; "-"; "2"]) 3 = Some "-".
Proof.
  split.
  - refine (proj1 (sign_is_unary_iff_preceded ["-"; "-"; "5"; "-"; "2"] 1 "-"
                     eq_refl (or_intror eq_refl)) _).
    right. exists 0%nat, "-".
    split; [ reflexivity | ]. split; [ reflexivity | ]. right. reflexivity.
  - refine (proj1 (proj2 (sign_is_unary_iff_preceded ["-"; "-"; "5"; "-"; "2"] 3 "-"
                     eq_refl (or_intror eq_refl))) _).
    intros [H | (j & previous & [= <-] & [= <-] & [H | H])]; discriminate H.
Defined.

(** ** The evaluator *)

Lemma eval_loop_app (host : runtime) (pre rest : list string) (stack : list value) :
  eval_loop host (pre ++ rest) stack =
  (stack' <- eval_loop host pre stack ;; eval_loop host rest stack').
Proof.
  revert stack. induction pre as [| token pre IH]; intros stack; simpl.
  - reflexivity.
  - destruct (eval_token host stack token); simpl; [ apply IH | reflexivity ].
Qed.

(** The binary branch of the loop body, for the three division operators. *)
Lemma eval_token_binary (host : runtime) (op : string) (l r : value) (stack : list value) :
  mem op ["/"; "//"; "%"] = true ->
  eval_token host (r :: l :: stack) op =
  (_ <- _validate_operation op l r ;;
   entry <- dict_getitem OPERATORS op ;;
   result <- call host (function entry) [l; r] ;;
   Ok (result :: stack)).
Proof.
  intros H. apply mem_cases in H. each_key H ltac:(reflexivity).
Qed.

(** C4. When the evaluator reaches a binary operator with [r] and [l] on top
    of its stack: if the operator is [/], [//] or [%] and [r == 0], the
    evaluation fails with DivisionByZero, whatever the tags of the operands
    (the zero check comes first); otherwise, if the operator is [//] or [%]
    and an operand is not an [int], it fails with InvalidExpression. *)
Theorem evaluation_checks_zero_before_type
  (host : runtime) (pre rest : list string) (op : string)
  (l r : value) (stack : list value) :
  eval_loop host pre [] = Ok (r :: l :: stack) ->
  (mem op ["/"; "//"; "%"] = true -> eq_zero r = true ->
   _validate_operation op l r = Raise division_by_zero
   /\ evaluate_rpn host (pre ++ op :: rest) = Raise division_by_zero)
  /\ (mem op ["//"; "%"] = true -> eq_zero r = false ->
      is_int l = false \/ is_int r = false ->
      _validate_operation op l r = Raise (integer_operation op)
      /\ evaluate_rpn host (pre ++ op :: rest) = Raise (integer_operation op)).
Proof.
  intros Hpre.
  assert (Hrun : forall e, mem op ["/"; "//"; "%"] = true ->
                           _validate_operation op l r = Raise e ->
                           evaluate_rpn host (pre ++ op :: rest) = Raise e).
  { intros e Hop Hv. unfold evaluate_rpn. rewrite eval_loop_app, Hpre. simpl.
    rewrite (eval_token_binary host op l r stack Hop), Hv. reflexivity. }
  split.
  - intros Hop Hz.
    assert (Hv : _validate_operation op l r = Raise division_by_zero).
    { unfold _validate_operation. rewrite Hop, Hz. reflexivity. }
    split; [ exact Hv | apply Hrun; assumption ].
  - intros Hop Hz Hint.
    assert (Hop3 : mem op ["/"; "//"; "%"] = true).
    { apply mem_cases in Hop. each_key Hop ltac:(reflexivity). }
    assert (Hv : _validate_operation op l r = Raise (integer_operation op)).
    { unfold _validate_operation. rewrite Hop, Hz, andb_false_r.
      destruct Hint as [-> | ->]; simpl; [ | rewrite orb_true_r ]; reflexivity. }
    split; [ exact Hv | apply Hrun; assumption ].
Qed.

Lemma evaluation_checks_zero_before_type_witness :
  evaluate_rpn bare_runtime ["10.5"; "0.0"; "%"; "1"; "+"] = Raise division_by_zero
  /\ evaluate_rpn bare_runtime ["10.5"; "3"; "//"] = Raise (integer_operation "//").
Proof.
  split.
  - refine (proj2 (proj1 (evaluation_checks_zero_before_type bare_runtime
              ["10.5"; "0.0"] ["1"; "+"] "%" _ _ _ _) _ _)).
    + vm_compute; reflexivity.
    + reflexivity.
    + reflexivity.
  - refine (proj2 (proj2 (evaluation_checks_zero_before_type bare_runtime
              ["10.5"; "3"] [] "//" _ _ _ _) _ _ _)).
    + vm_compute; reflexivity.
    + reflexivity.
    + reflexivity.
    + left; reflexivity.
Defined.

(** C6. Once the loop of [evaluate_rpn] has consumed all tokens and left
    [stack]: with exactly one value on it, that value is the result; with
    any other number of values, the call fails with InvalidExpression. So
    the empty sequence fails, and so do two numbers with no operator. *)
Theorem evaluate_rpn_needs_one_value
  (host : runtime) (rpn_tokens : list string) (stack : list value) :
  eval_loop host rpn_tokens [] = Ok stack ->
  (forall v, stack = [v] -> evaluate_rpn host rpn_tokens = Ok v)
  /\ (length stack <> 1%nat -> evaluate_rpn host rpn_tokens = Raise invalid_expression)
  /\ (forall v, evaluate_rpn host rpn_tokens = Ok v -> stack = [v])
  /\ evaluate_rpn host [] = Raise invalid_expression
  /\ evaluate_rpn host ["1"; "2"] = Raise invalid_expression.
Proof.
  intros Hloop. unfold evaluate_rpn at 1 2 3. rewrite Hloop. simpl.
  split; [ | split; [ | split; [ | split ] ] ].
  - intros v ->. reflexivity.
  - destruct stack as [| v [| w stack]]; simpl; intros H;
      [ reflexivity | contradiction H; reflexivity | reflexivity ].
  - intros v. destruct stack as [| w [| w' stack]]; intros H;
      [ discriminate H | injection H as <-; reflexivity | discriminate H ].
  - reflexivity.
  - vm_compute. reflexivity.
Qed.

Lemma evaluate_rpn_needs_one_value_witness :
  evaluate_rpn bare_runtime ["2"; "3"; "+"] = Ok (VInt 5)
  /\ evaluate_rpn bare_runtime ["2"; "3"; "+"; "4"] = Raise invalid_expression.
Proof.
  split.
  - refine (proj1 (evaluate_rpn_needs_one_value bare_runtime ["2"; "3"; "+"] _ _) _ _).
    + vm_compute; reflexivity.
    + reflexivity.
  - refine (proj1 (proj2 (evaluate_rpn_needs_one_value bare_runtime
                            ["2"; "3"; "+"; "4"] _ _)) _).
    + vm_compute; reflexivity.
    + simpl; lia.
Defined.






(** ** The orchestrator: errors *)

(** C8. Every failure of [calculate] is a [CalculatorError]: an exception of
    the pipeline that is one ([InvalidExpressionError] and
    [DivisionByZeroError] are subclasses) leaves [calculate] unchanged,
    whichever stage raised it; any other one leaves it as a plain
    [CalculatorError] around its description; a result is returned as is. *)
Theorem calculate_raises_only_calculator_errors (host : runtime) (expression : string) :
  issubclass InvalidExpressionError CalculatorError = true
  /\ issubclass DivisionByZeroError CalculatorError = true
  /\ (forall e, calculate host expression = Raise e ->
                isinstance_exc e CalculatorError = true)
  /\ (forall e, calculate_try host expression = Raise e ->
                isinstance_exc e CalculatorError = true ->
                calculate host expression = Raise e)
  /\ (forall e, calculate_try host expression = Raise e ->
                isinstance_exc e CalculatorError = false ->
                calculate host expression =
                Raise (Exc CalculatorError (ERROR_UNKNOWN (exc_message e))))
  /\ (forall v, calculate_try host expression = Ok v ->
                calculate host expression = Ok v)
  /\ (remove_spaces expression <> "" ->
      _check_parentheses (remove_spaces expression) = true ->
      forall e,
        tokenize (remove_spaces expression) = Raise e
        \/ (exists tokens,
               tokenize (remove_spaces expression) = Ok tokens
               /\ (to_rpn tokens = Raise e
                   \/ exists rpn_tokens,
                        to_rpn tokens = Ok rpn_tokens
                        /\ evaluate_rpn host rpn_tokens = Raise e)) ->
        calculate_try host expression = Raise e).
Proof.
  split; [ reflexivity | ]. split; [ reflexivity | ].
  assert (Hstages :
            remove_spaces expression <> "" ->
            _check_parentheses (remove_spaces expression) = true ->
            forall e,
              tokenize (remove_spaces expression) = Raise e
              \/ (exists tokens,
                     tokenize (remove_spaces expression) = Ok tokens
                     /\ (to_rpn tokens = Raise e
                         \/ exists rpn_tokens,
                              to_rpn tokens = Ok rpn_tokens
                              /\ evaluate_rpn host rpn_tokens = Raise e)) ->
              calculate_try host expression = Raise e).
  { intros Hne Hbal e Hraise. unfold calculate_try.
    destruct (String.eqb_spec (remove_spaces expression) ""); [ contradiction | ].
    rewrite Hbal. cbn [negb].
    destruct Hraise as [-> | (tokens & -> & Hraise)]; cbn [bind]; [ reflexivity | ].
    destruct Hraise as [-> | (rpn_tokens & -> & Hev)]; cbn [bind];
      [ reflexivity | exact Hev ]. }
  unfold calculate.
  destruct (calculate_try host expression) as [v | e].
  - repeat split; try discriminate; [ intros v' H; exact H | exact Hstages ].
  - split; [ | split; [ | split; [ | split ] ] ].
    + intros e'.
      destruct (isinstance_exc e CalculatorError) eqn:He; intros [= <-];
        [ exact He | reflexivity ].
    + intros e' [= ->] ->. reflexivity.
    + intros e' [= ->] ->. reflexivity.
    + discriminate.
    + exact Hstages.
Qed.

Lemma calculate_raises_only_calculator_errors_witness :
  calculate bare_runtime "5 / 0" = Raise division_by_zero
  /\ calculate bare_runtime "10 ** 400 / 1"
     = Raise (Exc CalculatorError (ERROR_UNKNOWN (exc_message OverflowError_div))).
Proof.
  split.
  - refine (proj1 (proj2 (proj2 (proj2 (calculate_raises_only_calculator_errors
                                          bare_runtime "5 / 0"))))
              division_by_zero _ _).
    + refine (proj2 (proj2 (proj2 (proj2 (proj2 (proj2
                (calculate_raises_only_calculator_errors bare_runtime "5 / 0"))))))
                _ _ division_by_zero _).
      * discriminate.
      * reflexivity.
      * right. exists ["5"; "/"; "0"]. split; [ reflexivity | ].
        right. exists ["5"; "0"; "/"]. split; reflexivity.
    + reflexivity.
  - refine (proj1 (proj2 (proj2 (proj2 (proj2 (calculate_raises_only_calculator_errors
                                                 bare_runtime "10 ** 400 / 1")))))
              OverflowError_div _ _).
    + vm_compute. reflexivity.
    + reflexivity.
Defined.

(** ** The orchestrator: parentheses *)

Lemma check_parentheses_balanced (stack : list ascii) (expression : string) :
  check_parentheses_from stack expression =
  balanced_from (length stack) (string_parens expression).
Proof.
  revert stack. induction expression as [| c rest IH]; intros stack; simpl.
  - reflexivity.
  - unfold char_parens.
    destruct (Ascii.eqb c "("); [ simpl; apply IH | ].
    destruct (Ascii.eqb c ")"); simpl; [ | apply IH ].
    destruct stack; [ reflexivity | apply IH ].
Qed.


Lemma token_parens_cons (token : string) (tokens : list string) :
  token_parens (token :: tokens) = (token_paren token ++ token_parens tokens)%list.
Proof. reflexivity. Qed.




(** Exhaustion of the 256 characters, for a class given by a computable test. *)
Ltac by_character c H :=
  destruct c as [[] [] [] [] [] [] [] []]; try discriminate H; reflexivity.

Lemma space_no_paren (c : ascii) : isspace c = true -> char_parens c = [].
Proof. intros Hs. by_character c Hs. Qed.








Lemma open_parens_app (a b : list string) :
  open_parens (a ++ b) = (open_parens a + open_parens b)%nat.
Proof.
  induction a as [| top a IH]; [ reflexivity | ].
  cbn [app open_parens]. rewrite IH. apply Nat.add_assoc.
Qed.

Lemma popped_no_parens (op : string) (popped : list string) :
  Forall (fun top => pop_rule top op) popped -> open_parens popped = 0%nat.
Proof.
  induction 1 as [| top popped [Hne _] _ IH].
  - reflexivity.
  - cbn [open_parens]. rewrite IH.
    destruct (String.eqb_spec top "("); [ contradiction | reflexivity ].
Qed.

Lemma rpn_drain_spec (operator_stack output : list string) :
  if (open_parens operator_stack =? 0)%nat
  then exists rpn, rpn_drain operator_stack output = Ok rpn
  else rpn_drain operator_stack output = Raise unbalanced.
Proof.
  revert output. induction operator_stack as [| top below IH]; intros output.
  - simpl. eexists; reflexivity.
  - cbn [open_parens rpn_drain].
    destruct (String.eqb top "("); [ reflexivity | apply IH ].
Qed.

(** The [")"] loop leaves nothing when no ["("] is open, and otherwise the
    innermost ["("] on top. *)
Lemma pop_to_paren_spec (operator_stack output : list string) :
  match fst (pop_to_paren operator_stack output) with
  | [] => open_parens operator_stack = 0%nat
  | top :: below => top = "(" /\ open_parens operator_stack = S (open_parens below)
  end.
Proof.
  revert output. induction operator_stack as [| top below IH]; intros output.
  - reflexivity.
  - cbn [open_parens pop_to_paren].
    destruct (String.eqb_spec top "(") as [-> | _]; simpl.
    + split; reflexivity.
    + apply IH.
Qed.

(** The converter fails, and then for unbalanced parentheses, exactly when
    the parentheses among the tokens left to read do not balance at the
    depth the operator stack records. *)
Lemma rpn_finish_spec (tokens output operator_stack : list string) :
  if balanced_from (open_parens operator_stack) (token_parens tokens)
  then exists rpn, rpn_finish tokens (output, operator_stack) = Ok rpn
  else rpn_finish tokens (output, operator_stack) = Raise unbalanced.
Proof.
  revert output operator_stack.
  induction tokens as [| token rest IH]; intros output operator_stack.
  - simpl. apply rpn_drain_spec.
  - rewrite token_parens_cons. unfold rpn_finish. cbn [rpn_loop]. unfold rpn_step.
    destruct (_is_number token) eqn:Hnum.
    { assert (Hq : token_paren token = []).
      { unfold token_paren.
        destruct (String.eqb_spec token "(") as [-> | _]; [ discriminate Hnum | ].
        destruct (String.eqb_spec token ")") as [-> | _];
          [ discriminate Hnum | reflexivity ]. }
      rewrite Hq. simpl. apply IH. }
    destruct (dict_mem OPERATORS token) eqn:Hop.
    { destruct (operator_not_number token Hop) as (_ & Ho & Hc).
      assert (Hq : token_paren token = []).
      { unfold token_paren.
        destruct (String.eqb_spec token "("); [ contradiction | ].
        destruct (String.eqb_spec token ")"); [ contradiction | reflexivity ]. }
      destruct (pop_operators_spec token operator_stack output Hop)
        as (popped & kept & -> & -> & Hall & _).
      rewrite Hq, open_parens_app, (popped_no_parens token popped Hall). simpl.
      specialize (IH (output ++ popped)%list (token :: kept)).
      cbn [open_parens] in IH.
      destruct (String.eqb_spec token "("); [ contradiction | ]. exact IH. }
    unfold token_paren.
    destruct (String.eqb_spec token "(") as [-> | Ho].
    { simpl. specialize (IH output ("(" :: operator_stack)). exact IH. }
    destruct (String.eqb_spec token ")") as [-> | Hc]; [ | simpl; apply IH ].
    pose proof (pop_to_paren_spec operator_stack output) as Hpop.
    destruct (pop_to_paren operator_stack output) as [[| top below] output'];
      simpl in Hpop |- *.
    + rewrite Hpop. reflexivity.
    + destruct Hpop as [_ ->]. apply IH.
Qed.



(** ** The orchestrator: blank input *)

Lemma remove_spaces_empty (s : string) :
  remove_spaces s = "" <-> all_chars (fun c => Ascii.eqb c " ") s = true.
Proof.
  induction s as [| c rest IH]; cbn [remove_spaces all_chars].
  - split; reflexivity.
  - destruct (Ascii.eqb c " "); cbn [andb].
    + exact IH.
    + split; discriminate.
Qed.

Lemma remove_spaces_whitespace (s : string) :
  all_chars isspace s = true -> all_chars isspace (remove_spaces s) = true.
Proof.
  induction s as [| c rest IH]; cbn [remove_spaces all_chars]; [ reflexivity | ].
  intros H. apply andb_true_iff in H. destruct H as [Hc Hrest].
  destruct (Ascii.eqb c " "); cbn [all_chars]; [ | rewrite Hc ]; auto.
Qed.

Lemma whitespace_no_parens (s : string) :
  all_chars isspace s = true -> string_parens s = [].
Proof.
  induction s as [| c rest IH]; cbn [string_parens all_chars]; [ reflexivity | ].
  intros H. apply andb_true_iff in H. destruct H as [Hc Hrest].
  rewrite (space_no_paren c Hc), (IH Hrest). reflexivity.
Qed.

Lemma scan_whitespace (s : string) :
  all_chars isspace s = true -> scan s = [].
Proof.
  unfold scan. induction s as [| c rest IH]; cbn [scan_from all_chars scan_step];
    [ reflexivity | ].
  intros H. apply andb_true_iff in H. destruct H as [Hc Hrest].
  unfold scan_start. rewrite Hc. cbn [app]. apply IH; exact Hrest.
Qed.

(** C7, as the code has it. [calculate] removes the space characters, and
    only those, before anything else, and fails with InvalidExpression
    (empty expression) whenever nothing is left, which is the case exactly
    for an input of spaces only. A blank input holding a tab or a newline is
    not emptied: it goes through the pipeline, yields no token, and fails
    with InvalidExpression (invalid expression). Every blank input fails
    with an InvalidExpression. *)
Theorem calculate_blank_input (host : runtime) (expression : string) :
  (remove_spaces expression = "" <->
   all_chars (fun c => Ascii.eqb c " ") expression = true)
  /\ (remove_spaces expression = "" ->
      calculate host expression = Raise empty_expression)
  /\ (all_chars isspace expression = true ->
      remove_spaces expression <> "" ->
      calculate host expression = Raise invalid_expression)
  /\ (all_chars isspace expression = true ->
      exists e, calculate host expression = Raise e
                /\ exc_type e = InvalidExpressionError).
Proof.
  assert (Hempty : remove_spaces expression = "" ->
                   calculate host expression = Raise empty_expression).
  { intros H. unfold calculate, calculate_try. rewrite H. reflexivity. }
  assert (Hblank : all_chars isspace expression = true ->
                   remove_spaces expression <> "" ->
                   calculate host expression = Raise invalid_expression).
  { intros Hws Hne. unfold calculate, calculate_try.
    apply remove_spaces_whitespace in Hws.
    destruct (String.eqb_spec (remove_spaces expression) ""); [ contradiction | ].
    unfold _check_parentheses.
    rewrite check_parentheses_balanced, (whitespace_no_parens _ Hws). simpl.
    unfold tokenize. rewrite (scan_whitespace _ Hws). reflexivity. }
  split; [ apply remove_spaces_empty | ].
  split; [ exact Hempty | ]. split; [ exact Hblank | ].
  intros Hws. destruct (String.eqb_spec (remove_spaces expression) "") as [He | Hne].
  - exists empty_expression. split; [ apply Hempty; exact He | reflexivity ].
  - exists invalid_expression. split; [ apply Hblank; assumption | reflexivity ].
Qed.

Lemma calculate_blank_input_witness :
  calculate bare_runtime "   " = Raise empty_expression
  /\ calculate bare_runtime (String "009" (String "010" " ")) = Raise invalid_expression.
Proof.
  split.
  - exact (proj1 (proj2 (calculate_blank_input bare_runtime "   ")) eq_refl).
  - refine (proj1 (proj2 (proj2 (calculate_blank_input bare_runtime
                                   (String "009" (String "010" " "))))) eq_refl _).
    discriminate.
Defined.

(** C7 as stated fails on a tab: the input is blank, [calculate] does not
    empty it, and the error raised is not the empty-expression one. *)
Lemma calculate_tab_is_not_stripped :
  all_chars isspace (String "009" "") = true
  /\ remove_spaces (String "009" "") = String "009" ""
  /\ calculate bare_runtime (String "009" "") = Raise invalid_expression
  /\ calculate bare_runtime (String "009" "") <> Raise empty_expression.
Proof.
  split; [ reflexivity | ].
  split; [ reflexivity | ].
  split; [ reflexivity | discriminate ].
Qed.

(** ** The tests of [test/test_calculator.py], run on the model

    A float expected by a test is written as the value of its literal. *)

Ltac run_test := vm_compute; reflexivity.
Ltac run_raises := eexists; split; [ vm_compute; reflexivity | reflexivity ].

Example test_tokenize :
  tokenize "2 + 2" = Ok ["2"; "+"; "2"]
  /\ tokenize "3 * 4 - 5" = Ok ["3"; "*"; "4"; "-"; "5"]
  /\ tokenize "12.34" = Ok ["12.34"]
  /\ tokenize "-5.5" = Ok ["u-"; "5.5"]
  /\ tokenize "2 + -3" = Ok ["2"; "+"; "u-"; "3"]
  /\ tokenize "2 - +3" = Ok ["2"; "-"; "u+"; "3"]
  /\ tokenize "(-2)" = Ok ["("; "u-"; "2"; ")"]
  /\ tokenize "-(2 + 3)" = Ok ["u-"; "("; "2"; "+"; "3"; ")"]
  /\ tokenize "2 ** 3" = Ok ["2"; "**"; "3"]
  /\ tokenize "10 // 3" = Ok ["10"; "//"; "3"]
  /\ tokenize "((2 + 3) * 4)" = Ok ["("; "("; "2"; "+"; "3"; ")"; "*"; "4"; ")"].
Proof. repeat split; run_test. Qed.

Example test_invalid_symbols :
  raises (tokenize "2 @ 3") InvalidExpressionError
  /\ raises (tokenize "abc + 3") InvalidExpressionError
  /\ raises (tokenize "2 $ 3") InvalidExpressionError.
Proof. split; [ | split ]; run_raises. Qed.

Example test_to_rpn :
  to_rpn ["2"; "+"; "3"; "*"; "4"] = Ok ["2"; "3"; "4"; "*"; "+"]
  /\ to_rpn ["("; "2"; "+"; "3"; ")"; "*"; "4"] = Ok ["2"; "3"; "+"; "4"; "*"]
  /\ to_rpn ["2"; "*"; "3"; "+"; "4"] = Ok ["2"; "3"; "*"; "4"; "+"]
  /\ to_rpn ["2"; "+"; "u-"; "3"] = Ok ["2"; "3"; "u-"; "+"]
  /\ raises (to_rpn ["("; "2"; "+"; "3"]) InvalidExpressionError
  /\ raises (to_rpn ["2"; "+"; "3"; ")"]) InvalidExpressionError.
Proof. repeat split; first [ run_test | run_raises ]. Qed.

Example test_evaluate_rpn (host : runtime) :
  evaluate_rpn host ["5"; "3"; "-"] = Ok (VInt 2)
  /\ evaluate_rpn host ["10"; "2"; "/"] = evaluate_rpn host ["5.0"]
  /\ evaluate_rpn host ["2"; "3"; "u-"; "+"] = Ok (VInt (-1))
  /\ evaluate_rpn host ["2.5"; "2"; "*"] = evaluate_rpn host ["5.0"]
  /\ evaluate_rpn host ["5.5"; "2.5"; "+"] = evaluate_rpn host ["8.0"]
  /\ evaluate_rpn host ["10.0"; "4.0"; "/"] = evaluate_rpn host ["2.5"]
  /\ raises (evaluate_rpn host ["10"; "0"; "//"]) DivisionByZeroError
  /\ raises (evaluate_rpn host ["10.5"; "3"; "//"]) InvalidExpressionError
  /\ raises (evaluate_rpn host ["10"; "3.5"; "%"]) InvalidExpressionError
  /\ raises (evaluate_rpn host ["2"; "+"]) InvalidExpressionError.
Proof. repeat split; first [ run_test | run_raises ]. Qed.

Example test_calculate (host : runtime) :
  calculate host "2 + 3 * 4" = Ok (VInt 14)
  /\ calculate host "(2 + 3) * 4" = Ok (VInt 20)
  /\ calculate host "10 // 3 + 10 % 3" = Ok (VInt 4)
  /\ calculate host " ( 2 + 3 ) * 4 " = Ok (VInt 20)
  /\ calculate host "-(2 + 3)" = Ok (VInt (-5))
  /\ calculate host "-2 * -3" = Ok (VInt 6)
  /\ calculate host "0.1 + 0.2" = calculate host "0.30000000000000004"
  /\ calculate host "-0" = Ok (VInt 0)
  /\ raises (calculate host "") InvalidExpressionError
  /\ raises (calculate host "2 + ") InvalidExpressionError
  /\ raises (calculate host "(2 + 3") InvalidExpressionError
  /\ raises (calculate host "2 + * 3") InvalidExpressionError
  /\ raises (calculate host "5 / 0") DivisionByZeroError
  /\ raises (calculate host "2 @ 3") InvalidExpressionError.
Proof. repeat split; first [ run_test | run_raises ]. Qed.

(** * Further properties of the code *)

(** ** The converter: what reaches the output *)

Lemma pop_to_paren_split (operator_stack output : list string) :
  exists popped kept,
    pop_to_paren operator_stack output = (kept, (output ++ popped)%list)
    /\ operator_stack = (popped ++ kept)%list
    /\ Forall (fun top => top <> "(") popped
    /\ (kept = [] \/ exists below, kept = "(" :: below).
Proof.
  revert output. induction operator_stack as [| top below IH]; intros output.
  - exists [], []. simpl. rewrite app_nil_r. auto.
  - cbn [pop_to_paren]. destruct (String.eqb_spec top "(") as [-> | Hne].
    + exists [], ("(" :: below). simpl. rewrite app_nil_r.
      repeat split; auto. right. exists below. reflexivity.
    + destruct (IH (output ++ [top])%list) as (popped & kept & -> & -> & Hall & Hkept).
      exists (top :: popped), kept. rewrite <- app_assoc. simpl.
      repeat split; auto.
Qed.

Lemma filter_no_open (l : list string) :
  Forall (fun top => top <> "(") l ->
  filter (fun top => negb (String.eqb top "(")) l = l.
Proof.
  induction 1 as [| top l Hne _ IH]; simpl; [ reflexivity | ].
  destruct (String.eqb_spec top "("); [ contradiction | ]. simpl. rewrite IH. reflexivity.
Qed.

Lemma popped_not_open (op : string) (popped : list string) :
  Forall (fun top => pop_rule top op) popped -> Forall (fun top => top <> "(") popped.
Proof. apply Forall_impl. intros top [Hne _]. exact Hne. Qed.

Lemma operand_or_operator_not_open (token : string) :
  is_operand_or_operator token = true -> token <> "(" /\ token <> ")".
Proof.
  unfold is_operand_or_operator. intros H. apply orb_true_iff in H.
  destruct H as [H | H].
  - split; intros ->; discriminate H.
  - destruct (operator_not_number token H) as (_ & Ho & Hc). auto.
Qed.

(** One turn of the loop adds the token to what is on its way to the
    output when it is a number or an operator, and nothing otherwise. *)
Lemma rpn_step_pending (state state' : list string * list string) (token : string) :
  rpn_step state token = Ok state' ->
  Permutation (pending_output state')
    (pending_output state ++ (if is_operand_or_operator token then [token] else []))%list.
Proof.
  destruct state as [output operator_stack]. unfold rpn_step, is_operand_or_operator.
  destruct (_is_number token) eqn:Hnum.
  { intros [= <-]. unfold pending_output; simpl.
    rewrite <- !app_assoc. apply Permutation_app_head, Permutation_app_comm. }
  destruct (dict_mem OPERATORS token) eqn:Hop; simpl.
  { destruct (pop_operators_spec token operator_stack output Hop)
      as (popped & kept & -> & -> & Hall & _).
    simpl. intros [= <-]. unfold pending_output; simpl.
    destruct (operator_not_number token Hop) as (_ & Ho & _).
    destruct (String.eqb_spec token "("); [ contradiction | ]. simpl.
    rewrite filter_app, (filter_no_open popped (popped_not_open token popped Hall)).
    rewrite <- !app_assoc. do 2 apply Permutation_app_head.
    apply Permutation_cons_append. }
  destruct (String.eqb_spec token "(") as [-> | Ho].
  { intros [= <-]. unfold pending_output; simpl. rewrite app_nil_r. reflexivity. }
  destruct (String.eqb_spec token ")") as [-> | Hc].
  { destruct (pop_to_paren_split operator_stack output)
      as (popped & kept & -> & -> & Hall & Hkept).
    destruct Hkept as [-> | (below & ->)]; [ discriminate | ].
    intros [= <-]. unfold pending_output; simpl.
    rewrite filter_app, (filter_no_open popped Hall). simpl.
    rewrite app_nil_r, <- app_assoc. reflexivity. }
  intros [= <-]. rewrite app_nil_r. reflexivity.
Qed.

Lemma rpn_loop_pending (tokens : list string) (state state' : list string * list string) :
  rpn_loop tokens state = Ok state' ->
  Permutation (pending_output state')
    (pending_output state ++ filter is_operand_or_operator tokens)%list.
Proof.
  revert state. induction tokens as [| token rest IH]; intros state; simpl.
  - intros [= <-]. rewrite app_nil_r. reflexivity.
  - destruct (rpn_step state token) as [mid |] eqn:Hstep; [ simpl | discriminate ].
    intros Hloop. rewrite (IH mid Hloop), (rpn_step_pending state mid token Hstep).
    rewrite <- app_assoc.
    destruct (is_operand_or_operator token); reflexivity.
Qed.

Lemma rpn_drain_output (operator_stack output rpn : list string) :
  rpn_drain operator_stack output = Ok rpn ->
  rpn = pending_output (output, operator_stack).
Proof.
  revert output. induction operator_stack as [| top below IH]; intros output.
  - simpl. intros [= <-]. unfold pending_output. simpl. rewrite app_nil_r. reflexivity.
  - cbn [rpn_drain]. destruct (String.eqb_spec top "(") as [-> | Hne]; [ discriminate | ].
    intros H. rewrite (IH _ H). unfold pending_output. simpl.
    destruct (String.eqb_spec top "("); [ contradiction | ].
    simpl. rewrite <- app_assoc. reflexivity.
Qed.

(** The stack of the converter never holds a number, so the numbers reach
    the output in the order of the input. *)
Lemma rpn_step_numbers (state state' : list string * list string) (token : string) :
  Forall (fun top => _is_number top = false) (snd state) ->
  rpn_step state token = Ok state' ->
  Forall (fun top => _is_number top = false) (snd state')
  /\ filter _is_number (fst state') =
     (filter _is_number (fst state) ++ (if _is_number token then [token] else []))%list.
Proof.
  destruct state as [output operator_stack]. unfold rpn_step. simpl. intros Hstack.
  assert (Hnone : forall l, Forall (fun top => _is_number top = false) l ->
                            filter _is_number l = []).
  { induction 1 as [| x l Hx _ IHl]; simpl; [ reflexivity | rewrite Hx; exact IHl ]. }
  destruct (_is_number token) eqn:Hnum.
  { intros [= <-]. simpl. split; [ exact Hstack | ].
    rewrite filter_app. simpl. rewrite Hnum. reflexivity. }
  rewrite app_nil_r.
  destruct (dict_mem OPERATORS token) eqn:Hop; simpl.
  { destruct (pop_operators_spec token operator_stack output Hop)
      as (popped & kept & -> & -> & _ & _).
    simpl. intros [= <-]. simpl. apply Forall_app in Hstack. destruct Hstack as [Hp Hk].
    split; [ constructor; assumption | ].
    rewrite filter_app, (Hnone popped Hp), app_nil_r. reflexivity. }
  destruct (String.eqb_spec token "(") as [-> | Ho].
  { intros [= <-]. simpl. split; [ constructor; [ reflexivity | exact Hstack ] | reflexivity ]. }
  destruct (String.eqb_spec token ")") as [-> | Hc].
  { destruct (pop_to_paren_split operator_stack output)
      as (popped & kept & -> & -> & _ & Hkept).
    destruct Hkept as [-> | (below & ->)]; [ discriminate | ].
    intros [= <-]. simpl. apply Forall_app in Hstack. destruct Hstack as [Hp Hk].
    inversion Hk; subst.
    split; [ assumption | ].
    rewrite filter_app, (Hnone popped Hp), app_nil_r. reflexivity. }
  intros [= <-]. simpl. split; [ exact Hstack | reflexivity ].
Qed.

Lemma rpn_loop_numbers (tokens : list string) (state state' : list string * list string) :
  Forall (fun top => _is_number top = false) (snd state) ->
  rpn_loop tokens state = Ok state' ->
  Forall (fun top => _is_number top = false) (snd state')
  /\ filter _is_number (fst state') =
     (filter _is_number (fst state) ++ filter _is_number tokens)%list.
Proof.
  revert state. induction tokens as [| token rest IH]; intros state Hstack; simpl.
  - intros [= <-]. rewrite app_nil_r. auto.
  - destruct (rpn_step state token) as [mid |] eqn:Hstep; [ simpl | discriminate ].
    intros Hloop.
    destruct (rpn_step_numbers state mid token Hstack Hstep) as [Hmid Hout].
    destruct (IH mid Hmid Hloop) as [Hfinal Hout'].
    split; [ exact Hfinal | ].
    rewrite Hout', Hout, <- app_assoc.
    destruct (_is_number token); reflexivity.
Qed.

(** X1. When [to_rpn] returns, its output is a rearrangement of the numbers
    and operators of the input: nothing is lost, nothing is added, no
    parenthesis is left, and the numbers keep their order. *)
Theorem to_rpn_rearranges_operands_and_operators (tokens rpn : list string) :
  to_rpn tokens = Ok rpn ->
  Permutation rpn (filter is_operand_or_operator tokens)
  /\ filter _is_number rpn = filter _is_number tokens
  /\ Forall (fun token => token <> "(" /\ token <> ")") rpn
  /\ length rpn = length (filter is_operand_or_operator tokens).
Proof.
  unfold to_rpn.
  destruct (rpn_loop tokens ([], [])) as [[output operator_stack] |] eqn:Hloop;
    [ simpl | discriminate ].
  intros Hdrain.
  pose proof (rpn_drain_output _ _ _ Hdrain) as ->.
  pose proof (rpn_loop_pending tokens _ _ Hloop) as Hperm. simpl in Hperm.
  destruct (rpn_loop_numbers tokens ([], []) _ (Forall_nil _) Hloop) as [Hstack Hnum].
  simpl in Hstack, Hnum.
  split; [ exact Hperm | ]. split; [ | split ].
  - unfold pending_output. simpl. rewrite filter_app, Hnum.
    assert (Hnone : filter _is_number
                      (filter (fun top => negb (String.eqb top "(")) operator_stack) = []).
    { clear - Hstack. induction Hstack as [| x l Hx _ IHl]; simpl; [ reflexivity | ].
      destruct (negb (String.eqb x "(")); simpl; [ rewrite Hx | ]; exact IHl. }
    rewrite Hnone, app_nil_r. reflexivity.
  - apply Forall_forall. intros token Hin.
    apply (Permutation_in _ Hperm) in Hin. apply filter_In in Hin.
    apply operand_or_operator_not_open. apply Hin.
  - apply Permutation_length. exact Hperm.
Qed.

Lemma to_rpn_rearranges_operands_and_operators_witness :
  Permutation ["2"; "3"; "4"; "+"; "*"]
              (filter is_operand_or_operator ["2"; "*"; "("; "3"; "+"; "4"; ")"])
  /\ filter _is_number ["2"; "3"; "4"; "+"; "*"]
     = filter _is_number ["2"; "*"; "("; "3"; "+"; "4"; ")"].
Proof.
  split.
  - exact (proj1 (to_rpn_rearranges_operands_and_operators
                    ["2"; "*"; "("; "3"; "+"; "4"; ")"] _ eq_refl)).
  - exact (proj1 (proj2 (to_rpn_rearranges_operands_and_operators
                           ["2"; "*"; "("; "3"; "+"; "4"; ")"] _ eq_refl))).
Defined.

(** ** The converter: failure, ignored tokens, outer parentheses *)

(** X2. [to_rpn] returns exactly when the parenthesis tokens of its input
    balance (no [")"] without an open ["("], every ["("] closed), whatever
    the other tokens are; when it raises, the exception is the
    unbalanced-parentheses InvalidExpressionError, never a [KeyError] from
    the table lookups. *)
Theorem to_rpn_fails_only_on_parentheses (tokens : list string) :
  (balanced_from 0 (token_parens tokens) = true <-> exists rpn, to_rpn tokens = Ok rpn)
  /\ (balanced_from 0 (token_parens tokens) = false <-> to_rpn tokens = Raise unbalanced)
  /\ (forall e, to_rpn tokens = Raise e -> e = unbalanced).
Proof.
  pose proof (rpn_finish_spec tokens [] []) as H.
  change (rpn_finish tokens ([], [])) with (to_rpn tokens) in H.
  change (open_parens []) with 0%nat in H.
  destruct (balanced_from 0 (token_parens tokens)).
  - destruct H as [rpn ->]. split; [ | split ].
    + split; [ intros _; exists rpn; reflexivity | reflexivity ].
    + split; discriminate.
    + discriminate.
  - rewrite H. split; [ | split ].
    + split; [ discriminate | intros [rpn Hrpn]; discriminate Hrpn ].
    + split; reflexivity.
    + intros e [= <-]. reflexivity.
Qed.

Lemma to_rpn_fails_only_on_parentheses_witness :
  (exists rpn, to_rpn ["("; "u-"; "("; "2"; ")"; "@"; ")"] = Ok rpn)
  /\ to_rpn ["2"; ")"; "("] = Raise unbalanced.
Proof.
  split.
  - exact (proj1 (proj1 (to_rpn_fails_only_on_parentheses
                           ["("; "u-"; "("; "2"; ")"; "@"; ")"])) eq_refl).
  - exact (proj1 (proj1 (proj2 (to_rpn_fails_only_on_parentheses ["2"; ")"; "("])))
             eq_refl).
Defined.

Lemma rpn_step_ignores (state : list string * list string) (token : string) :
  is_operand_or_operator token || is_parenthesis token = false ->
  rpn_step state token = Ok state.
Proof.
  unfold is_operand_or_operator, is_parenthesis, rpn_step. intros H.
  apply orb_false_iff in H. destruct H as [H1 H2].
  apply orb_false_iff in H1. destruct H1 as [-> ->].
  apply orb_false_iff in H2. destruct H2 as [-> ->].
  destruct state. reflexivity.
Qed.

(** X3. [to_rpn] acts only on numbers, operators and parentheses: any other
    token (which [tokenize] lets through when it starts with "u") falls
    through the loop, so removing those tokens changes nothing. *)
Theorem to_rpn_ignores_other_tokens (tokens : list string) :
  to_rpn tokens =
  to_rpn (filter (fun token => is_operand_or_operator token || is_parenthesis token) tokens).
Proof.
  unfold to_rpn. f_equal. generalize (@nil string, @nil string).
  induction tokens as [| token rest IH]; intros state.
  - reflexivity.
  - cbn [filter].
    destruct (is_operand_or_operator token || is_parenthesis token) eqn:Hk.
    + cbn [rpn_loop]. destruct (rpn_step state token); [ simpl; apply IH | reflexivity ].
    + cbn [rpn_loop]. rewrite (rpn_step_ignores state token Hk). simpl. apply IH.
Qed.

Lemma rpn_loop_app (a b : list string) (state : list string * list string) :
  rpn_loop (a ++ b) state = (mid <- rpn_loop a state ;; rpn_loop b mid).
Proof.
  revert state. induction a as [| token a IH]; intros state; simpl.
  - reflexivity.
  - destruct (rpn_step state token); simpl; [ apply IH | reflexivity ].
Qed.

Lemma pop_operators_frame (token : string) (operator_stack output kept output' base : list string) :
  dict_mem OPERATORS token = true ->
  pop_operators token operator_stack output = Ok (kept, output') ->
  pop_operators token (operator_stack ++ "(" :: base) output
  = Ok ((kept ++ "(" :: base)%list, output').
Proof.
  intros Hop. revert output.
  induction operator_stack as [| top below IH]; intros output.
  - simpl. intros [= <- <-]. reflexivity.
  - cbn [app pop_operators]. destruct (String.eqb_spec top "(") as [-> | Hne].
    + intros [= <- <-]. reflexivity.
    + destruct (should_pop_total top token Hop) as (b & -> & _). simpl.
      destruct b; [ apply IH | intros [= <- <-]; reflexivity ].
Qed.

Lemma pop_to_paren_frame (operator_stack output below output' base : list string) :
  pop_to_paren operator_stack output = ("(" :: below, output') ->
  pop_to_paren (operator_stack ++ base) output = (("(" :: below) ++ base, output')%list.
Proof.
  revert output. induction operator_stack as [| top rest IH]; intros output.
  - simpl. discriminate.
  - cbn [app pop_to_paren]. destruct (String.eqb_spec top "(") as [-> | Hne].
    + intros [= <- <-]. reflexivity.
    + apply IH.
Qed.

(** A turn of the loop that succeeds does the same above an open ["("]. *)
Lemma rpn_step_frame (output operator_stack output' operator_stack' base : list string)
      (token : string) :
  rpn_step (output, operator_stack) token = Ok (output', operator_stack') ->
  rpn_step (output, (operator_stack ++ "(" :: base)%list) token
  = Ok (output', (operator_stack' ++ "(" :: base)%list).
Proof.
  unfold rpn_step.
  destruct (_is_number token); [ intros [= <- <-]; reflexivity | ].
  destruct (dict_mem OPERATORS token) eqn:Hop.
  { destruct (pop_operators token operator_stack output) as [[kept out] |] eqn:Hpop;
      [ simpl | discriminate ].
    intros [= <- <-].
    rewrite (pop_operators_frame token _ _ _ _ base Hop Hpop). reflexivity. }
  destruct (String.eqb token "("); [ intros [= <- <-]; reflexivity | ].
  destruct (String.eqb token ")"); [ | intros [= <- <-]; reflexivity ].
  destruct (pop_to_paren operator_stack output) as [[| top below] out] eqn:Hpop;
    [ discriminate | ].
  intros [= <- <-].
  pose proof (pop_to_paren_spec operator_stack output) as Hs.
  rewrite Hpop in Hs. simpl in Hs. destruct Hs as [-> _].
  rewrite (pop_to_paren_frame _ _ _ _ ("(" :: base) Hpop). reflexivity.
Qed.

Lemma rpn_loop_frame (tokens output operator_stack output' operator_stack' base : list string) :
  rpn_loop tokens (output, operator_stack) = Ok (output', operator_stack') ->
  rpn_loop tokens (output, (operator_stack ++ "(" :: base)%list)
  = Ok (output', (operator_stack' ++ "(" :: base)%list).
Proof.
  revert output operator_stack.
  induction tokens as [| token rest IH]; intros output operator_stack; cbn [rpn_loop].
  - intros [= <- <-]. reflexivity.
  - destruct (rpn_step (output, operator_stack) token) as [[out st] |] eqn:Hstep;
      cbn [bind]; [ | discriminate ].
    intros Hloop. rewrite (rpn_step_frame _ _ _ _ base _ Hstep). cbn [bind].
    apply IH. exact Hloop.
Qed.

Lemma rpn_drain_all (operator_stack output rpn : list string) :
  rpn_drain operator_stack output = Ok rpn ->
  Forall (fun top => top <> "(") operator_stack /\ rpn = (output ++ operator_stack)%list.
Proof.
  revert output. induction operator_stack as [| top below IH]; intros output.
  - simpl. intros [= <-]. rewrite app_nil_r. auto.
  - cbn [rpn_drain]. destruct (String.eqb_spec top "(") as [-> | Hne]; [ discriminate | ].
    intros H. destruct (IH _ H) as [Hall ->].
    rewrite <- app_assoc. auto.
Qed.

Lemma pop_to_paren_closes (operator_stack output base : list string) :
  Forall (fun top => top <> "(") operator_stack ->
  pop_to_paren (operator_stack ++ "(" :: base) output
  = ("(" :: base, (output ++ operator_stack)%list).
Proof.
  intros Hall. revert output.
  induction Hall as [| top below Hne _ IH]; intros output.
  - simpl. rewrite app_nil_r. reflexivity.
  - cbn [app pop_to_paren]. destruct (String.eqb_spec top "("); [ contradiction | ].
    rewrite IH, <- app_assoc. reflexivity.
Qed.

(** X4. Parentheses around a whole expression do not change its postfix
    form: when [to_rpn] returns [rpn] for [tokens], it returns the same for
    ["("], [tokens], [")"]. *)
Theorem to_rpn_outer_parentheses (tokens rpn : list string) :
  to_rpn tokens = Ok rpn ->
  to_rpn ("(" :: tokens ++ [")"]) = Ok rpn.
Proof.
  unfold to_rpn.
  destruct (rpn_loop tokens ([], [])) as [[output operator_stack] |] eqn:Hloop;
    [ simpl | discriminate ].
  intros Hdrain. destruct (rpn_drain_all _ _ _ Hdrain) as [Hall ->].
  pose proof (rpn_loop_frame tokens [] [] _ _ [] Hloop) as Hframe.
  cbn [app] in Hframe.
  cbn [rpn_loop].
  change (rpn_step ([], []) "(") with (@Ok (list string * list string) ([], ["("])).
  cbn [bind]. rewrite rpn_loop_app, Hframe. cbn [bind rpn_loop].
  unfold rpn_step.
  change (_is_number ")") with false. change (dict_mem OPERATORS ")") with false.
  change (String.eqb ")" "(") with false. change (String.eqb ")" ")") with true.
  cbv iota. rewrite (pop_to_paren_closes operator_stack output [] Hall).
  reflexivity.
Qed.

Lemma to_rpn_outer_parentheses_witness :
  to_rpn ["("; "2"; "+"; "3"; "*"; "4"; ")"] = Ok ["2"; "3"; "4"; "*"; "+"].
Proof.
  exact (to_rpn_outer_parentheses ["2"; "+"; "3"; "*"; "4"] _ eq_refl).
Defined.

(** ** The converter: chains of operators of one precedence *)

Lemma of_class_operator (p : Z) (assoc o : string) :
  of_class p assoc o ->
  dict_mem OPERATORS o = true /\ _is_number o = false /\ o <> "(".
Proof.
  intros (entry & He & _).
  assert (Hm : dict_mem OPERATORS o = true) by (unfold dict_mem; rewrite He; reflexivity).
  destruct (operator_not_number o Hm) as (Hn & Ho & _). auto.
Qed.

Lemma rpn_step_number (output operator_stack : list string) (n : string) :
  _is_number n = true ->
  rpn_step (output, operator_stack) n = Ok ((output ++ [n])%list, operator_stack).
Proof. intros H. unfold rpn_step. rewrite H. reflexivity. Qed.

(** An operator arriving on a stack whose top has the same precedence: the
    top is popped when the operator associates to the left, kept when it
    associates to the right. *)
Lemma should_pop_same_class (p : Z) (assoc top o : string) :
  of_class p assoc top -> of_class p assoc o ->
  _should_pop_operator top o = Ok (String.eqb assoc "left").
Proof.
  intros (t & Ht & Hpt & _) (e & He & Hpe & Hae).
  unfold _should_pop_operator, dict_mem, dict_getitem. rewrite Ht, He. simpl.
  rewrite Hpt, Hpe, Hae.
  rewrite Z.gtb_ltb, Z.ltb_irrefl.
  rewrite Z.eqb_refl. simpl. destruct (String.eqb assoc "left"); reflexivity.
Qed.

Lemma rpn_finish_left_chain (p : Z) (rest : list (string * string))
      (output operator_stack : list string) :
  Forall (fun '(o, n) => of_class p "left" o /\ _is_number n = true) rest ->
  operator_stack = [] \/ (exists o, operator_stack = [o] /\ of_class p "left" o) ->
  rpn_finish (flat_map (fun '(o, n) => [o; n]) rest) (output, operator_stack)
  = Ok (output ++ operator_stack ++ flat_map (fun '(o, n) => [n; o]) rest)%list.
Proof.
  intros Hrest. revert output operator_stack.
  induction Hrest as [| [o n] rest [Ho Hn] _ IH]; intros output operator_stack Hstack.
  - unfold rpn_finish. simpl. rewrite app_nil_r.
    destruct Hstack as [-> | (o & -> & Ho)].
    + rewrite app_nil_r. reflexivity.
    + destruct (of_class_operator _ _ _ Ho) as (_ & _ & Hne). simpl.
      destruct (String.eqb_spec o "("); [ contradiction | reflexivity ].
  - destruct (of_class_operator _ _ _ Ho) as (Hm & Hnum & Hne).
    assert (Hpush : rpn_step (output, operator_stack) o
                    = Ok ((output ++ operator_stack)%list, [o])).
    { unfold rpn_step. rewrite Hnum, Hm.
      destruct Hstack as [-> | (o0 & -> & Ho0)].
      - simpl. rewrite app_nil_r. reflexivity.
      - destruct (of_class_operator _ _ _ Ho0) as (_ & _ & Hne0).
        cbn [pop_operators]. destruct (String.eqb_spec o0 "("); [ contradiction | ].
        rewrite (should_pop_same_class p "left" o0 o Ho0 Ho). reflexivity. }
    unfold rpn_finish in *. cbn [flat_map app rpn_loop].
    rewrite Hpush. cbn [bind]. rewrite (rpn_step_number _ _ n Hn). cbn [bind].
    rewrite (IH _ [o]) by (right; exists o; auto).
    f_equal. rewrite <- !app_assoc. reflexivity.
Qed.

(** X5. Operators of one precedence that associate to the left are applied
    from left to right: the chain [n0 o1 n1 o2 n2 ...] becomes
    [n0 n1 o1 n2 o2 ...], whatever its length. *)
Theorem to_rpn_left_associative_chain (p : Z) (first : string)
        (rest : list (string * string)) :
  _is_number first = true ->
  Forall (fun '(o, n) => of_class p "left" o /\ _is_number n = true) rest ->
  to_rpn (infix_chain first rest) = Ok (postfix_left first rest).
Proof.
  intros Hfirst Hrest. unfold to_rpn, infix_chain, postfix_left.
  cbn [rpn_loop]. rewrite (rpn_step_number [] [] first Hfirst). cbn [bind app].
  exact (rpn_finish_left_chain p rest [first] [] Hrest (or_introl eq_refl)).
Qed.

Lemma to_rpn_left_associative_chain_witness :
  to_rpn ["8"; "/"; "4"; "*"; "3"; "%"; "5"] = Ok ["8"; "4"; "/"; "3"; "*"; "5"; "%"].
Proof.
  refine (to_rpn_left_associative_chain 3 "8" [("/", "4"); ("*", "3"); ("%", "5")]
            eq_refl _).
  repeat constructor; eexists; repeat split; reflexivity.
Defined.

Lemma rpn_finish_right_chain (p : Z) (rest : list (string * string))
      (output operator_stack : list string) :
  Forall (fun '(o, n) => of_class p "right" o /\ _is_number n = true) rest ->
  Forall (of_class p "right") operator_stack ->
  rpn_finish (flat_map (fun '(o, n) => [o; n]) rest) (output, operator_stack)
  = Ok (output ++ map snd rest ++ rev (map fst rest) ++ operator_stack)%list.
Proof.
  intros Hrest. revert output operator_stack.
  induction Hrest as [| [o n] rest [Ho Hn] _ IH]; intros output operator_stack Hstack.
  - unfold rpn_finish. simpl. clear - Hstack. revert output.
    induction Hstack as [| top below Htop _ IHs]; intros output.
    + simpl. rewrite app_nil_r. reflexivity.
    + destruct (of_class_operator _ _ _ Htop) as (_ & _ & Hne).
      cbn [rpn_drain]. destruct (String.eqb_spec top "("); [ contradiction | ].
      rewrite IHs, <- app_assoc. reflexivity.
  - destruct (of_class_operator _ _ _ Ho) as (Hm & Hnum & Hne).
    assert (Hpush : rpn_step (output, operator_stack) o
                    = Ok (output, o :: operator_stack)).
    { unfold rpn_step. rewrite Hnum, Hm.
      destruct Hstack as [| top below Htop _]; [ reflexivity | ].
      destruct (of_class_operator _ _ _ Htop) as (_ & _ & Hne0).
      cbn [pop_operators]. destruct (String.eqb_spec top "("); [ contradiction | ].
      rewrite (should_pop_same_class p "right" top o Htop Ho). reflexivity. }
    unfold rpn_finish in *. cbn [flat_map app rpn_loop].
    rewrite Hpush. cbn [bind]. rewrite (rpn_step_number _ _ n Hn). cbn [bind].
    rewrite (IH _ (o :: operator_stack)) by (constructor; assumption).
    f_equal. cbn [map fst snd rev]. rewrite <- !app_assoc. reflexivity.
Qed.

(** X6. Operators of one precedence that associate to the right are
    applied from right to left: every operator of the chain waits on the
    stack, so [n0 ** n1 ** ... ** nk] becomes [n0 n1 ... nk ** ... **],
    whatever its length. *)
Theorem to_rpn_right_associative_chain (p : Z) (first : string)
        (rest : list (string * string)) :
  _is_number first = true ->
  Forall (fun '(o, n) => of_class p "right" o /\ _is_number n = true) rest ->
  to_rpn (infix_chain first rest) = Ok (postfix_right first rest).
Proof.
  intros Hfirst Hrest. unfold to_rpn, infix_chain, postfix_right.
  cbn [rpn_loop]. rewrite (rpn_step_number [] [] first Hfirst). cbn [bind app].
  pose proof (rpn_finish_right_chain p rest [first] [] Hrest (Forall_nil _)) as H.
  rewrite app_nil_r in H. exact H.
Qed.

Lemma to_rpn_right_associative_chain_witness :
  to_rpn ["2"; "**"; "3"; "**"; "2"; "**"; "1"] = Ok ["2"; "3"; "2"; "1"; "**"; "**"; "**"].
Proof.
  refine (to_rpn_right_associative_chain 4 "2" [("**", "3"); ("**", "2"); ("**", "1")]
            eq_refl _).
  repeat constructor; eexists; repeat split; reflexivity.
Defined.

(** ** The evaluator: ignored tokens and the height of the stack *)

Lemma eval_token_ignores (host : runtime) (stack : list value) (token : string) :
  is_operand_or_operator token = false -> eval_token host stack token = Ok stack.
Proof.
  unfold is_operand_or_operator, eval_token. intros H.
  apply orb_false_iff in H. destruct H as [-> ->]. reflexivity.
Qed.

(** X7. [evaluate_rpn] acts only on numbers and operators: any other token,
    a parenthesis for instance, is skipped without an error, so removing
    those tokens changes nothing. *)
Theorem evaluate_rpn_ignores_other_tokens (host : runtime) (rpn_tokens : list string) :
  evaluate_rpn host rpn_tokens =
  evaluate_rpn host (filter is_operand_or_operator rpn_tokens).
Proof.
  unfold evaluate_rpn. f_equal. generalize (@nil value).
  induction rpn_tokens as [| token rest IH]; intros stack.
  - reflexivity.
  - cbn [filter]. destruct (is_operand_or_operator token) eqn:Hk; cbn [eval_loop].
    + destruct (eval_token host stack token); [ cbn [bind]; apply IH | reflexivity ].
    + rewrite (eval_token_ignores host stack token Hk). cbn [bind]. apply IH.
Qed.

Lemma eval_token_height (host : runtime) (stack stack' : list value) (token : string) :
  eval_token host stack token = Ok stack' ->
  Z.of_nat (length stack') = Z.of_nat (length stack) + stack_delta token.
Proof.
  unfold eval_token, stack_delta.
  destruct (_is_number token).
  { destruct (contains_char "." token).
    - destruct (float_of_string token); [ cbn [bind] | discriminate ].
      intros [= <-]. cbn [length]. lia.
    - destruct (int_of_string token); [ cbn [bind] | discriminate ].
      intros [= <-]. cbn [length]. lia. }
  destruct (dict_mem OPERATORS token); [ | intros [= <-]; lia ].
  destruct (dict_getitem OPERATORS token) as [entry |]; cbn [bind].
  - destruct (startswith "u" token).
    + destruct stack as [| operand stack]; [ discriminate | ].
      destruct (call host (function entry) [operand]); [ cbn [bind] | discriminate ].
      intros [= <-]. cbn [length]. lia.
    + destruct stack as [| r [| l stack]]; try discriminate.
      destruct (_validate_operation token l r); [ cbn [bind] | discriminate ].
      destruct (call host (function entry) [l; r]); [ cbn [bind] | discriminate ].
      intros [= <-]. cbn [length]. lia.
  - destruct (startswith "u" token).
    + destruct stack; discriminate.
    + destruct stack as [| r [| l stack]]; try discriminate.
      destruct (_validate_operation token l r); discriminate.
Qed.

Lemma eval_loop_height (host : runtime) (tokens : list string) (stack stack' : list value) :
  eval_loop host tokens stack = Ok stack' ->
  Z.of_nat (length stack') = Z.of_nat (length stack) + stack_deltas tokens.
Proof.
  revert stack. induction tokens as [| token rest IH]; intros stack; cbn [eval_loop].
  - intros [= <-]. simpl. lia.
  - destruct (eval_token host stack token) as [mid |] eqn:Hstep; cbn [bind];
      [ | discriminate ].
    intros Hloop. rewrite (IH mid Hloop), (eval_token_height host _ _ _ Hstep).
    simpl. lia.
Qed.

Lemma stack_deltas_count (tokens : list string) :
  stack_deltas tokens =
  Z.of_nat (length (filter _is_number tokens))
  - Z.of_nat (length (filter is_binary_operator tokens)).
Proof.
  induction tokens as [| token rest IH]; [ reflexivity | ].
  cbn [stack_deltas fold_right filter]. fold (stack_deltas rest). rewrite IH.
  unfold stack_delta. rewrite <- (binary_operator_test token).
  destruct (_is_number token) eqn:Hnum.
  - destruct (dict_mem OPERATORS token) eqn:Hop.
    + destruct (operator_not_number token Hop) as (Hn & _). congruence.
    + cbn [andb length]. lia.
  - destruct (dict_mem OPERATORS token); cbn [andb];
      [ destruct (startswith "u" token); cbn [negb length]; lia | lia ].
Qed.

Lemma evaluate_rpn_ok (host : runtime) (rpn_tokens : list string) (v : value) :
  evaluate_rpn host rpn_tokens = Ok v <-> eval_loop host rpn_tokens [] = Ok [v].
Proof.
  unfold evaluate_rpn.
  destruct (eval_loop host rpn_tokens []) as [[| w [| w' stack]] |]; cbn [bind];
    split; try discriminate; intros [= <-]; reflexivity.
Qed.

(** X8. [evaluate_rpn] returns a value only for a sequence with exactly one
    more number than binary operators (unary operators and ignored tokens
    do not count). *)
Theorem evaluate_rpn_counts_operands (host : runtime) (rpn_tokens : list string) (v : value) :
  evaluate_rpn host rpn_tokens = Ok v ->
  length (filter _is_number rpn_tokens)
  = S (length (filter is_binary_operator rpn_tokens)).
Proof.
  intros H. apply evaluate_rpn_ok in H. apply eval_loop_height in H.
  rewrite stack_deltas_count in H. simpl in H. lia.
Qed.

Lemma evaluate_rpn_counts_operands_witness :
  length (filter _is_number ["2"; "3"; "u-"; "4"; "*"; "+"])
  = S (length (filter is_binary_operator ["2"; "3"; "u-"; "4"; "*"; "+"])).
Proof.
  refine (evaluate_rpn_counts_operands bare_runtime _ (VInt (-10)) _).
  vm_compute. reflexivity.
Defined.

(** ** The evaluator: composition *)

(** A turn of the loop that succeeds does the same whatever lies deeper in
    the stack. *)
Lemma eval_token_frame (host : runtime) (stack stack' base : list value) (token : string) :
  eval_token host stack token = Ok stack' ->
  eval_token host (stack ++ base) token = Ok (stack' ++ base)%list.
Proof.
  unfold eval_token.
  destruct (_is_number token).
  { destruct (contains_char "." token).
    - destruct (float_of_string token); [ cbn [bind] | discriminate ].
      intros [= <-]. reflexivity.
    - destruct (int_of_string token); [ cbn [bind] | discriminate ].
      intros [= <-]. reflexivity. }
  destruct (dict_mem OPERATORS token); [ | intros [= <-]; reflexivity ].
  destruct (startswith "u" token).
  - destruct stack as [| operand stack]; [ discriminate | ]. cbn [app].
    destruct (dict_getitem OPERATORS token) as [entry |]; cbn [bind]; [ | discriminate ].
    destruct (call host (function entry) [operand]); cbn [bind]; [ | discriminate ].
    intros [= <-]. reflexivity.
  - destruct stack as [| r [| l stack]]; try discriminate. cbn [app].
    destruct (_validate_operation token l r); cbn [bind]; [ | discriminate ].
    destruct (dict_getitem OPERATORS token) as [entry |]; cbn [bind]; [ | discriminate ].
    destruct (call host (function entry) [l; r]); cbn [bind]; [ | discriminate ].
    intros [= <-]. reflexivity.
Qed.

Lemma eval_loop_frame (host : runtime) (tokens : list string) (stack stack' base : list value) :
  eval_loop host tokens stack = Ok stack' ->
  eval_loop host tokens (stack ++ base) = Ok (stack' ++ base)%list.
Proof.
  revert stack. induction tokens as [| token rest IH]; intros stack; cbn [eval_loop].
  - intros [= <-]. reflexivity.
  - destruct (eval_token host stack token) as [mid |] eqn:Hstep; cbn [bind];
      [ | discriminate ].
    intros Hloop. rewrite (eval_token_frame host _ _ base _ Hstep). cbn [bind].
    apply IH. exact Hloop.
Qed.

Lemma eval_token_binary_operator (host : runtime) (op : string) (l r : value)
      (stack : list value) :
  is_binary_operator op = true ->
  eval_token host (r :: l :: stack) op =
  (_ <- _validate_operation op l r ;;
   entry <- dict_getitem OPERATORS op ;;
   result <- call host (function entry) [l; r] ;;
   Ok (result :: stack)).
Proof.
  intros H. apply mem_cases in H. each_key H ltac:(reflexivity).
Qed.

(** X9. Postfix evaluation composes: when [a] evaluates to [va] and [b] to
    [vb], then [a], [b] and a binary operator evaluate to what the operator
    gives on [va] and [vb] after validation, errors included. *)
Theorem evaluate_rpn_composes (host : runtime) (a b : list string) (op : string)
        (va vb : value) :
  evaluate_rpn host a = Ok va ->
  evaluate_rpn host b = Ok vb ->
  is_binary_operator op = true ->
  evaluate_rpn host (a ++ b ++ [op]) =
  (_ <- _validate_operation op va vb ;;
   entry <- dict_getitem OPERATORS op ;;
   call host (function entry) [va; vb]).
Proof.
  intros Ha Hb Hop. apply evaluate_rpn_ok in Ha. apply evaluate_rpn_ok in Hb.
  pose proof (eval_loop_frame host b [] [vb] [va] Hb) as Hframe. cbn [app] in Hframe.
  unfold evaluate_rpn. rewrite eval_loop_app, Ha. cbn [bind].
  rewrite eval_loop_app, Hframe. cbn [bind app eval_loop].
  rewrite (eval_token_binary_operator host op va vb [] Hop).
  destruct (_validate_operation op va vb); cbn [bind]; [ | reflexivity ].
  destruct (dict_getitem OPERATORS op) as [entry |]; cbn [bind]; [ | reflexivity ].
  destruct (call host (function entry) [va; vb]); reflexivity.
Qed.

Lemma evaluate_rpn_composes_witness :
  evaluate_rpn bare_runtime (["2"; "3"; "+"] ++ ["7"; "u-"] ++ ["*"]) = Ok (VInt (-35)).
Proof.
  exact (evaluate_rpn_composes bare_runtime ["2"; "3"; "+"] ["7"; "u-"] "*"
           (VInt 5) (VInt (-7)) eq_refl eq_refl eq_refl).
Defined.

Lemma SFopp_involutive (x : float) : SFopp (SFopp x) = x.
Proof. destruct x as [s | s | | s m e]; simpl; try rewrite negb_involutive; reflexivity. Qed.

(** X10. The unary operators on any value of the stack: [u+] leaves it as
    it is, and two [u-] in a row cancel. *)
Theorem evaluate_rpn_unary_operators (host : runtime) (a : list string) (v : value) :
  evaluate_rpn host a = Ok v ->
  evaluate_rpn host (a ++ ["u+"]) = Ok v
  /\ evaluate_rpn host (a ++ ["u-"; "u-"]) = Ok v.
Proof.
  intros Ha. apply evaluate_rpn_ok in Ha.
  unfold evaluate_rpn. rewrite !eval_loop_app, Ha. cbn [bind]. split.
  - reflexivity.
  - cbn. destruct v as [n | x | re im]; cbn.
    + rewrite Z.opp_involutive. reflexivity.
    + rewrite SFopp_involutive. reflexivity.
    + rewrite !SFopp_involutive. reflexivity.
Qed.

Lemma evaluate_rpn_unary_operators_witness :
  evaluate_rpn bare_runtime (["2.5"; "4"; "*"] ++ ["u+"]) = evaluate_rpn bare_runtime ["10.0"]
  /\ evaluate_rpn bare_runtime (["2.5"; "4"; "*"] ++ ["u-"; "u-"])
     = evaluate_rpn bare_runtime ["10.0"].
Proof.
  exact (evaluate_rpn_unary_operators bare_runtime ["2.5"; "4"; "*"] _ eq_refl).
Defined.

(** X11. A token that [float] accepts and [int] refuses, with no ["."] in it
    (["inf"], ["nan"], ["1e5"]), counts as a number, and [evaluate_rpn]
    then fails on it with the built-in [ValueError] of [int], which is not
    a [CalculatorError]; [calculate] would wrap it. *)
Theorem evaluate_rpn_leaks_value_error (host : runtime) (pre rest : list string)
        (token : string) (stack : list value) (e : exn) :
  eval_loop host pre [] = Ok stack ->
  _is_number token = true ->
  contains_char "." token = false ->
  int_of_string token = Raise e ->
  evaluate_rpn host (pre ++ token :: rest) = Raise e
  /\ e = ValueError_int
  /\ isinstance_exc e CalculatorError = false.
Proof.
  intros Hpre Hnum Hdot Hint.
  assert (He : e = ValueError_int).
  { unfold int_of_string in Hint. destruct (sign (strip isspace_c token)) as [neg body].
    destruct (digitpart body 0 0) as [[[n count] [| c s]] |];
      first [ discriminate Hint | injection Hint as <-; reflexivity ]. }
  split; [ | split; [ exact He | rewrite He; reflexivity ] ].
  unfold evaluate_rpn. rewrite eval_loop_app, Hpre. cbn [bind eval_loop].
  unfold eval_token. rewrite Hnum, Hdot, Hint. reflexivity.
Qed.

Lemma evaluate_rpn_leaks_value_error_witness :
  evaluate_rpn bare_runtime ["2"; "inf"; "+"] = Raise ValueError_int
  /\ evaluate_rpn bare_runtime ["1e5"] = Raise ValueError_int.
Proof.
  split.
  - refine (proj1 (evaluate_rpn_leaks_value_error bare_runtime ["2"] ["+"] "inf"
                     [VInt 2] _ eq_refl eq_refl eq_refl eq_refl)).
  - refine (proj1 (evaluate_rpn_leaks_value_error bare_runtime [] [] "1e5"
                     [] _ eq_refl eq_refl eq_refl eq_refl)).
Defined.

(** ** The tokenizer *)

Lemma enumerate_length {A : Type} (l : list A) (k : nat) :
  length (enumerate_from k l) = length l.
Proof.
  revert k. induction l as [| x l IH]; intros k; simpl; [ reflexivity | ].
  rewrite IH. reflexivity.
Qed.

(** The token at index [i] after the unary pass, from the one before it. *)
Lemma process_unary_nth (tokens : list string) (i : nat) :
  nth_error (_process_unary_operators tokens) i =
  option_map (retag_sign tokens i) (nth_error tokens i).
Proof.
  unfold _process_unary_operators, enumerate. rewrite nth_error_enumerate. reflexivity.
Qed.

Lemma process_unary_length (tokens : list string) :
  length (_process_unary_operators tokens) = length tokens.
Proof.
  unfold _process_unary_operators, enumerate.
  rewrite length_map, enumerate_length. reflexivity.
Qed.

Lemma sign_is_binary_operator (token : string) :
  mem token ["+"; "-"] = true -> is_binary_operator token = true.
Proof. intros H. apply mem_cases in H. each_key H ltac:(reflexivity). Qed.

(** A sign left binary has before it a token that the pass does not touch. *)
Lemma token_before_kept (tokens : list string) (i : nat) (token : string) :
  nth_error tokens i = Some token ->
  is_unary tokens i = false ->
  token_before (_process_unary_operators tokens) i = token_before tokens i.
Proof.
  intros Hi Hu. unfold is_unary in Hu.
  apply orb_false_iff in Hu. destruct Hu as [Hu Hbin].
  apply orb_false_iff in Hu. destruct Hu as [Hzero _].
  rewrite binary_operator_test in Hbin.
  destruct i as [| j]; [ discriminate Hzero | ].
  unfold token_before in *. cbn [Nat.sub] in *. rewrite Nat.sub_0_r in *.
  assert (Hj : (j < length tokens)%nat).
  { apply Nat.lt_succ_l. apply nth_error_Some. rewrite Hi. discriminate. }
  destruct (nth_error tokens j) as [previous |] eqn:Hp;
    [ | apply nth_error_None in Hp; lia ].
  rewrite (nth_error_nth _ _ "" Hp) in *.
  apply nth_error_nth. rewrite process_unary_nth, Hp. cbn [option_map]. unfold retag_sign.
  destruct (mem previous ["+"; "-"]) eqn:Hs; [ | reflexivity ].
  rewrite (sign_is_binary_operator previous Hs) in Hbin. discriminate Hbin.
Qed.

(** X12. The unary pass keeps the number of tokens, changes nothing but
    [+] and [-] tokens, never leaves a binary sign in first position, and a
    second pass changes nothing: a retagged sign is no longer a sign, and a
    sign left binary keeps the token before it. *)
Theorem process_unary_operators_idempotent (tokens : list string) :
  length (_process_unary_operators tokens) = length tokens
  /\ (forall i token, nth_error tokens i = Some token ->
                      mem token ["+"; "-"] = false ->
                      nth_error (_process_unary_operators tokens) i = Some token)
  /\ (forall first rest, _process_unary_operators tokens = first :: rest ->
                         mem first ["+"; "-"] = false)
  /\ _process_unary_operators (_process_unary_operators tokens)
     = _process_unary_operators tokens.
Proof.
  split; [ apply process_unary_length | ].
  split; [ | split ].
  - intros i token Hi Hs. rewrite process_unary_nth, Hi. cbn [option_map].
    unfold retag_sign. rewrite Hs. reflexivity.
  - intros first rest H.
    assert (H0 : nth_error (_process_unary_operators tokens) 0 = Some first)
      by (rewrite H; reflexivity).
    rewrite process_unary_nth in H0.
    destruct (nth_error tokens 0) as [token |]; [ | discriminate H0 ].
    cbn [option_map] in H0. unfold retag_sign in H0.
    change (is_unary tokens 0) with true in H0.
    destruct (mem token ["+"; "-"]) eqn:Hs; injection H0 as <-; [ | exact Hs ].
    apply mem_cases in Hs. each_key Hs ltac:(reflexivity).
  - apply nth_error_ext. intros i.
    rewrite (process_unary_nth (_process_unary_operators tokens)), process_unary_nth.
    destruct (nth_error tokens i) as [token |] eqn:Hi; [ | reflexivity ].
    cbn [option_map]. f_equal. unfold retag_sign.
    destruct (mem token ["+"; "-"]) eqn:Hs; [ | rewrite Hs; reflexivity ].
    destruct (is_unary tokens i) eqn:Hu.
    + apply mem_cases in Hs. each_key Hs ltac:(reflexivity).
    + rewrite Hs.
      assert (Hsame : is_unary (_process_unary_operators tokens) i = false).
      { unfold is_unary in *. rewrite (token_before_kept tokens i token Hi Hu). exact Hu. }
      rewrite Hsame. reflexivity.
Qed.

Lemma process_unary_operators_idempotent_witness :
  nth_error (_process_unary_operators ["("; "-"; "2"; ")"; "-"; "-"; "3"]) 3 = Some ")"
  /\ (forall first rest,
         _process_unary_operators ["-"; "2"] = first :: rest ->
         mem first ["+"; "-"] = false).
Proof.
  split.
  - exact (proj1 (proj2 (process_unary_operators_idempotent
                           ["("; "-"; "2"; ")"; "-"; "-"; "3"])) 3%nat ")" eq_refl eq_refl).
  - exact (proj1 (proj2 (proj2 (process_unary_operators_idempotent ["-"; "2"])))).
Defined.

Lemma check_tokens_spec (tokens : list string) :
  match check_tokens tokens with
  | Ok _ => Forall (fun token => token_accepted token = true) tokens
  | Raise e =>
      exists before token after,
        tokens = (before ++ token :: after)%list
        /\ Forall (fun t => token_accepted t = true) before
        /\ token_accepted token = false
        /\ e = Exc InvalidExpressionError (ERROR_INVALID_SYMBOL token)
  end.
Proof.
  induction tokens as [| token rest IH]; cbn [check_tokens].
  - constructor.
  - destruct (token_accepted token) eqn:Ha; cbn [negb].
    + destruct (check_tokens rest) as [u | e].
      * constructor; assumption.
      * destruct IH as (before & bad & after & -> & Hb & Hbad & ->).
        exists (token :: before), bad, after. repeat split; auto.
    + exists [], token, rest. repeat split; auto.
Qed.

Lemma process_unary_accepted (tokens : list string) :
  Forall (fun token => token_accepted token = true) tokens ->
  Forall (fun token => token_accepted token = true) (_process_unary_operators tokens).
Proof.
  intros Hall. apply Forall_forall. intros token Hin.
  apply In_nth_error in Hin. destruct Hin as [i Hi].
  rewrite process_unary_nth in Hi.
  destruct (nth_error tokens i) as [raw |] eqn:Hraw; [ | discriminate Hi ].
  cbn [option_map] in Hi. injection Hi as <-.
  apply nth_error_In in Hraw. rewrite Forall_forall in Hall. specialize (Hall raw Hraw).
  unfold retag_sign.
  destruct (mem raw ["+"; "-"]) eqn:Hs; [ | exact Hall ].
  destruct (is_unary tokens i); [ | exact Hall ].
  apply mem_cases in Hs. each_key Hs ltac:(reflexivity).
Qed.

(** X13. [tokenize] fails only on a scanned token that is neither a number,
    an operator nor a parenthesis and does not start with "u": it then
    raises InvalidExpressionError naming the first such token. When it
    returns, every token returned passes that same test. *)
Theorem tokenize_reports_first_invalid_symbol (expression : string) :
  (forall tokens, tokenize expression = Ok tokens ->
     Forall (fun token => token_accepted token = true) tokens
     /\ length tokens = length (scan expression))
  /\ (forall e, tokenize expression = Raise e ->
        exists before token after,
          scan expression = (before ++ token :: after)%list
          /\ Forall (fun t => token_accepted t = true) before
          /\ token_accepted token = false
          /\ e = Exc InvalidExpressionError (ERROR_INVALID_SYMBOL token)).
Proof.
  unfold tokenize. pose proof (check_tokens_spec (scan expression)) as H.
  destruct (check_tokens (scan expression)) as [u | e0]; cbn [bind].
  - split; [ | discriminate ].
    intros tokens [= <-]. split; [ apply process_unary_accepted; exact H | ].
    apply process_unary_length.
  - split; [ discriminate | ].
    intros e [= <-]. exact H.
Qed.

Lemma tokenize_reports_first_invalid_symbol_witness :
  exists before token after,
    scan "2 + x * u3 @ 4" = (before ++ token :: after)%list
    /\ Forall (fun t => token_accepted t = true) before
    /\ token_accepted token = false
    /\ Exc InvalidExpressionError (ERROR_INVALID_SYMBOL "x")
       = Exc InvalidExpressionError (ERROR_INVALID_SYMBOL token).
Proof.
  exact (proj2 (tokenize_reports_first_invalid_symbol "2 + x * u3 @ 4") _ eq_refl).
Defined.

(** ** [_should_pop_operator] outside the converter *)

(** X14. [_should_pop_operator] looks the stack top up first: a top that is
    not an operator (["("], a number) gives [False] whatever the current
    token is; with an operator on top, a current token that is not in the
    table raises [KeyError]; with both in the table it returns. *)
Theorem should_pop_operator_missing_key (stack_top current_token : string) :
  (dict_mem OPERATORS stack_top = false ->
   _should_pop_operator stack_top current_token = Ok false)
  /\ (dict_mem OPERATORS stack_top = true ->
      dict_mem OPERATORS current_token = false ->
      _should_pop_operator stack_top current_token
      = Raise (Exc KeyError (host_text current_token)))
  /\ (dict_mem OPERATORS current_token = true ->
      exists pop, _should_pop_operator stack_top current_token = Ok pop).
Proof.
  split; [ | split ].
  - intros H. unfold _should_pop_operator. rewrite H. reflexivity.
  - intros Ht Hc. unfold _should_pop_operator, dict_getitem, dict_mem in *.
    destruct (dict_get OPERATORS stack_top); [ | discriminate Ht ].
    destruct (dict_get OPERATORS current_token); [ discriminate Hc | ].
    reflexivity.
  - intros Hc. destruct (should_pop_total stack_top current_token Hc) as (b & Hb & _).
    exists b. exact Hb.
Qed.

Lemma should_pop_operator_missing_key_witness :
  _should_pop_operator "(" "+" = Ok false
  /\ _should_pop_operator "+" "(" = Raise (Exc KeyError (host_text "("))
  /\ (exists pop, _should_pop_operator "2" "*" = Ok pop).
Proof.
  split; [ | split ].
  - exact (proj1 (should_pop_operator_missing_key "(" "+") eq_refl).
  - exact (proj1 (proj2 (should_pop_operator_missing_key "+" "(")) eq_refl eq_refl).
  - exact (proj2 (proj2 (should_pop_operator_missing_key "2" "*")) eq_refl).
Defined.

(** ** The orchestrator *)

Lemma prefixes_of_cons (c : ascii) (rest : string) (P : string -> Prop) :
  (forall before after, String c rest = before ++ after -> P before)
  <-> P "" /\ forall before after, rest = before ++ after -> P (String c before).
Proof.
  split.
  - intros H. split.
    + apply (H "" (String c rest)). reflexivity.
    + intros before after Hrest. apply (H (String c before) after).
      cbn [append]. rewrite Hrest. reflexivity.
  - intros [Hnil Hcons] [| d before] after Hsplit.
    + exact Hnil.
    + cbn [append] in Hsplit. injection Hsplit as <- Hrest. apply (Hcons before after Hrest).
Qed.

Lemma check_parentheses_from_spec (stack : list ascii) (expression : string) :
  check_parentheses_from stack expression = true <->
  (length stack + count_char "(" expression = count_char ")" expression
   /\ forall before after,
        expression = before ++ after ->
        count_char ")" before <= length stack + count_char "(" before)%nat.
Proof.
  revert stack. induction expression as [| c rest IH]; intros stack.
  - cbn [check_parentheses_from count_char]. rewrite Nat.eqb_eq. split.
    + intros H. split; [ lia | ].
      intros [| d before] after Hsplit; [ cbn [count_char]; lia | discriminate Hsplit ].
    + intros [H _]. lia.
  - cbn [check_parentheses_from]. rewrite prefixes_of_cons. cbn [count_char].
    destruct (Ascii.eqb c "(") eqn:Ho.
    + assert (Hc : Ascii.eqb c ")" = false).
      { apply Ascii.eqb_eq in Ho. subst c. reflexivity. }
      rewrite Hc, IH. cbn [length]. cbv iota.
      split; intros [Hcount Hpre].
      * split; [ lia | ]. split; [ lia | ].
        intros before after Hrest. specialize (Hpre before after Hrest). lia.
      * split; [ lia | ].
        intros before after Hrest. destruct Hpre as [_ Hpre].
        specialize (Hpre before after Hrest). lia.
    + destruct (Ascii.eqb c ")") eqn:Hc; cbv iota.
      * destruct stack as [| top stack].
        -- split; [ discriminate | ].
           intros [_ [_ Hpre]]. specialize (Hpre "" rest eq_refl).
           cbn [count_char length] in Hpre. lia.
        -- rewrite IH. cbn [length].
           split; intros [Hcount Hpre].
           ++ split; [ lia | ]. split; [ lia | ].
              intros before after Hrest. specialize (Hpre before after Hrest). lia.
           ++ split; [ lia | ].
              intros before after Hrest. destruct Hpre as [_ Hpre].
              specialize (Hpre before after Hrest). lia.
      * rewrite IH.
        split; intros [Hcount Hpre].
        -- split; [ lia | ]. split; [ lia | ].
           intros before after Hrest. specialize (Hpre before after Hrest). lia.
        -- split; [ lia | ].
           intros before after Hrest. destruct Hpre as [_ Hpre].
           specialize (Hpre before after Hrest). lia.
Qed.

(** X15. [_check_parentheses] accepts a text exactly when it has as many
    ["("] as [")"] and no beginning of it has more [")"] than ["("]; the
    other characters play no part. *)
Theorem check_parentheses_characterized (expression : string) :
  _check_parentheses expression = true <->
  (count_char "(" expression = count_char ")" expression
   /\ forall before after,
        expression = before ++ after ->
        (count_char ")" before <= count_char "(" before)%nat).
Proof.
  unfold _check_parentheses. rewrite check_parentheses_from_spec. reflexivity.
Qed.

Lemma remove_spaces_idempotent (s : string) :
  remove_spaces (remove_spaces s) = remove_spaces s.
Proof.
  induction s as [| c rest IH]; cbn [remove_spaces]; [ reflexivity | ].
  destruct (Ascii.eqb c " ") eqn:Hc; [ exact IH | ].
  cbn [remove_spaces]. rewrite Hc, IH. reflexivity.
Qed.

(** X16. [calculate] sees its input only through the text without its
    spaces: two inputs that differ by spaces, wherever they are (between
    tokens, inside a number, inside [**]), give the same result or the same
    error. [calculate_expression] is [calculate]. *)
Theorem calculate_ignores_spaces (host : runtime) (expression other : string) :
  remove_spaces expression = remove_spaces other ->
  calculate host expression = calculate host other
  /\ calculate host (remove_spaces expression) = calculate host expression
  /\ calculate_expression host expression = calculate host other.
Proof.
  intros H.
  assert (Hsame : forall a b, remove_spaces a = remove_spaces b ->
                              calculate host a = calculate host b).
  { intros a b Hab. unfold calculate, calculate_try. rewrite Hab. reflexivity. }
  split; [ apply Hsame; exact H | ].
  split; [ apply Hsame, remove_spaces_idempotent | ].
  unfold calculate_expression. apply Hsame; exact H.
Qed.

Lemma calculate_ignores_spaces_witness :
  calculate bare_runtime "1 2 + 2 * * 3" = calculate bare_runtime "12+2**3"
  /\ calculate bare_runtime "12+2**3" = Ok (VInt 20).
Proof.
  split.
  - exact (proj1 (calculate_ignores_spaces bare_runtime "1 2 + 2 * * 3" "12+2**3" eq_refl)).
  - vm_compute. reflexivity.
Defined.

(** X17. [calculate] checks the parentheses of the whole text before it
    tokenizes: a non-empty text whose parentheses do not balance fails with
    the unbalanced-parentheses InvalidExpressionError, whatever else is
    wrong with it (an invalid symbol, a division by zero). *)
Theorem calculate_reports_parentheses_first (host : runtime) (expression : string) :
  remove_spaces expression <> "" ->
  _check_parentheses (remove_spaces expression) = false ->
  calculate host expression = Raise unbalanced.
Proof.
  intros Hne Hbal. unfold calculate, calculate_try.
  destruct (String.eqb_spec (remove_spaces expression) ""); [ contradiction | ].
  rewrite Hbal. reflexivity.
Qed.

Lemma calculate_reports_parentheses_first_witness :
  calculate bare_runtime "2 @ (1 / 0" = Raise unbalanced.
Proof.
  refine (calculate_reports_parentheses_first bare_runtime "2 @ (1 / 0" _ eq_refl).
  discriminate.
Defined.

(** ** Conversion then evaluation, on chains *)

Lemma eval_token_number (host : runtime) (stack : list value) (n : string) :
  _is_number n = true ->
  eval_token host stack n = (v <- number_value n ;; Ok (v :: stack)).
Proof.
  intros H. unfold eval_token, number_value. rewrite H.
  destruct (contains_char "." n).
  - destruct (float_of_string n); reflexivity.
  - destruct (int_of_string n); reflexivity.
Qed.

Lemma eval_token_apply_binary (host : runtime) (op : string) (l r : value)
      (stack : list value) :
  is_binary_operator op = true ->
  eval_token host (r :: l :: stack) op =
  (v <- apply_binary host op l r ;; Ok (v :: stack)).
Proof.
  intros H. rewrite (eval_token_binary_operator host op l r stack H).
  unfold apply_binary.
  destruct (_validate_operation op l r); cbn [bind]; [ | reflexivity ].
  destruct (dict_getitem OPERATORS op) as [entry |]; cbn [bind]; [ | reflexivity ].
  destruct (call host (function entry) [l; r]); reflexivity.
Qed.

Lemma left_class_binary (p : Z) (o : string) :
  of_class p "left" o -> is_binary_operator o = true.
Proof.
  intros (entry & He & _ & Ha).
  assert (Hm : dict_mem OPERATORS o = true) by (unfold dict_mem; rewrite He; reflexivity).
  apply operators_keys in Hm.
  each_key Hm ltac:(first [ reflexivity
                          | vm_compute in He; injection He as <-; discriminate Ha ]).
Qed.

Lemma eval_loop_left_chain (host : runtime) (rest : list (string * string))
      (v : value) (stack : list value) :
  Forall (fun '(o, n) => is_binary_operator o = true /\ _is_number n = true) rest ->
  eval_loop host (flat_map (fun '(o, n) => [n; o]) rest) (v :: stack)
  = (r <- fold_chain_left host v rest ;; Ok (r :: stack)).
Proof.
  intros Hrest. revert v.
  induction Hrest as [| [o n] rest [Ho Hn] _ IH]; intros v.
  - reflexivity.
  - cbn [flat_map app eval_loop fold_chain_left].
    rewrite (eval_token_number host _ n Hn).
    destruct (number_value n) as [w |]; cbn [bind]; [ | reflexivity ].
    rewrite (eval_token_apply_binary host o v w stack Ho).
    destruct (apply_binary host o v w) as [r |]; cbn [bind]; [ apply IH | reflexivity ].
Qed.

(** X18. A chain of left-associative operators of one precedence is
    evaluated from left to right: converting [n0 o1 n1 o2 n2 ...] and
    evaluating the result computes [((n0 o1 n1) o2 n2) ...], with the same
    error when a step fails. *)
Theorem left_chain_evaluates_left_to_right (host : runtime) (p : Z) (first : string)
        (rest : list (string * string)) :
  _is_number first = true ->
  Forall (fun '(o, n) => of_class p "left" o /\ _is_number n = true) rest ->
  (rpn_tokens <- to_rpn (infix_chain first rest) ;; evaluate_rpn host rpn_tokens)
  = (v <- number_value first ;; fold_chain_left host v rest).
Proof.
  intros Hfirst Hrest.
  assert (Hrpn : to_rpn (infix_chain first rest) = Ok (postfix_left first rest)).
  { unfold to_rpn, infix_chain, postfix_left.
    cbn [rpn_loop]. rewrite (rpn_step_number [] [] first Hfirst). cbn [bind app].
    exact (rpn_finish_left_chain p rest [first] [] Hrest (or_introl eq_refl)). }
  rewrite Hrpn. cbn [bind].
  unfold evaluate_rpn, postfix_left. cbn [eval_loop].
  rewrite (eval_token_number host [] first Hfirst).
  destruct (number_value first) as [v |]; cbn [bind]; [ | reflexivity ].
  rewrite eval_loop_left_chain.
  - destruct (fold_chain_left host v rest); reflexivity.
  - revert Hrest. apply Forall_impl. intros [o n] [Ho Hn].
    split; [ exact (left_class_binary p o Ho) | exact Hn ].
Qed.

Lemma left_chain_evaluates_left_to_right_witness :
  (rpn_tokens <- to_rpn ["10"; "-"; "4"; "-"; "3"] ;; evaluate_rpn bare_runtime rpn_tokens)
  = Ok (VInt 3).
Proof.
  refine (left_chain_evaluates_left_to_right bare_runtime 2 "10" [("-", "4"); ("-", "3")]
            eq_refl _).
  repeat constructor; eexists; repeat split; reflexivity.
Defined.

Lemma eval_loop_right_chain (host : runtime) (rest : list (string * string))
      (more : list string) (v : value) (stack : list value) :
  Forall (fun '(o, n) => is_binary_operator o = true /\ _is_number n = true) rest ->
  eval_loop host (map snd rest ++ rev (map fst rest) ++ more) (v :: stack)
  = (r <- fold_chain_right host v rest ;; eval_loop host more (r :: stack)).
Proof.
  intros Hrest. revert more v stack.
  induction Hrest as [| [o n] rest [Ho Hn] _ IH]; intros more v stack.
  - reflexivity.
  - cbn [map fst snd rev app eval_loop fold_chain_right].
    rewrite (eval_token_number host _ n Hn).
    destruct (number_value n) as [w |]; cbn [bind]; [ | reflexivity ].
    rewrite <- app_assoc, IH.
    destruct (fold_chain_right host w rest) as [r |]; cbn [bind]; [ | reflexivity ].
    cbn [app eval_loop]. rewrite (eval_token_apply_binary host o v r stack Ho).
    destruct (apply_binary host o v r); reflexivity.
Qed.

(** X19. A chain of [**], or of any binary operators of one precedence
    that associate to the right, is evaluated from right to left:
    converting [n0 ** n1 ** ... ** nk] and evaluating the result computes
    [n0 ** (n1 ** (... ** nk))], with the same error when a step fails. *)
Theorem right_chain_evaluates_right_to_left (host : runtime) (p : Z) (first : string)
        (rest : list (string * string)) :
  _is_number first = true ->
  Forall (fun '(o, n) => (of_class p "right" o /\ is_binary_operator o = true)
                         /\ _is_number n = true) rest ->
  (rpn_tokens <- to_rpn (infix_chain first rest) ;; evaluate_rpn host rpn_tokens)
  = (v <- number_value first ;; fold_chain_right host v rest).
Proof.
  intros Hfirst Hrest.
  assert (Hclass : Forall (fun '(o, n) => of_class p "right" o /\ _is_number n = true) rest).
  { revert Hrest. apply Forall_impl. intros [o n] [[Ho _] Hn]. auto. }
  assert (Hbin : Forall (fun '(o, n) => is_binary_operator o = true /\ _is_number n = true)
                        rest).
  { revert Hrest. apply Forall_impl. intros [o n] [[_ Ho] Hn]. auto. }
  assert (Hrpn : to_rpn (infix_chain first rest) = Ok (postfix_right first rest)).
  { unfold to_rpn, infix_chain, postfix_right.
    cbn [rpn_loop]. rewrite (rpn_step_number [] [] first Hfirst). cbn [bind app].
    pose proof (rpn_finish_right_chain p rest [first] [] Hclass (Forall_nil _)) as H.
    rewrite app_nil_r in H. exact H. }
  rewrite Hrpn. cbn [bind].
  unfold evaluate_rpn, postfix_right. cbn [eval_loop].
  rewrite (eval_token_number host [] first Hfirst).
  destruct (number_value first) as [v |]; cbn [bind]; [ | reflexivity ].
  pose proof (eval_loop_right_chain host rest [] v [] Hbin) as H.
  rewrite app_nil_r in H. rewrite H.
  destruct (fold_chain_right host v rest); reflexivity.
Qed.

Lemma right_chain_evaluates_right_to_left_witness :
  (rpn_tokens <- to_rpn ["2"; "**"; "3"; "**"; "2"; "**"; "1"] ;;
   evaluate_rpn bare_runtime rpn_tokens)
  = Ok (VInt 512).
Proof.
  refine (right_chain_evaluates_right_to_left bare_runtime 4 "2"
            [("**", "3"); ("**", "2"); ("**", "1")] eq_refl _).
  repeat constructor; try (eexists; repeat split; reflexivity).
Defined.

(** ** The evaluator: missing operands *)

(** X20. An operator that finds too few values on the stack (none for a
    unary operator, fewer than two for a binary one) makes [evaluate_rpn]
    fail with InvalidExpressionError (not enough operands), wherever it
    stands in the sequence; the stack is never read out of bounds. *)
Theorem evaluate_rpn_missing_operands (host : runtime) (pre rest : list string)
        (op : string) (stack : list value) :
  eval_loop host pre [] = Ok stack ->
  (is_binary_operator op = true /\ (length stack < 2)%nat)
  \/ (dict_mem OPERATORS op = true /\ stack = []) ->
  evaluate_rpn host (pre ++ op :: rest) = Raise not_enough_operands.
Proof.
  intros Hpre Hshort.
  unfold evaluate_rpn. rewrite eval_loop_app, Hpre. cbn [bind eval_loop].
  assert (Htoken : eval_token host stack op = Raise not_enough_operands).
  { destruct Hshort as [[Hop Hlen] | [Hop ->]].
    - apply mem_cases in Hop.
      destruct stack as [| r [| l stack]]; [ | | cbn [length] in Hlen; lia ];
        each_key Hop ltac:(reflexivity).
    - apply operators_keys in Hop. each_key Hop ltac:(reflexivity). }
  rewrite Htoken. reflexivity.
Qed.

Lemma evaluate_rpn_missing_operands_witness :
  evaluate_rpn bare_runtime ["2"; "+"; "3"] = Raise not_enough_operands
  /\ evaluate_rpn bare_runtime ["u-"; "5"] = Raise not_enough_operands.
Proof.
  split.
  - refine (evaluate_rpn_missing_operands bare_runtime ["2"] ["3"] "+" [VInt 2] eq_refl _).
    left. split; [ reflexivity | simpl; lia ].
  - refine (evaluate_rpn_missing_operands bare_runtime [] ["5"] "u-" [] eq_refl _).
    right. split; reflexivity.
Defined.
